(** * download_image.py: locate, download, verify and alias a disk image

    A shallow embedding of [misc-tools/download_image.py] and the
    properties of its workflow: URL scheme dispatch, channel resolution,
    redirect walking, download with checksum verification, and symlink
    aliasing.

    The script is effectful.  Its effects are modelled by explicit state
    passing over a [world] (file system, working directory, standard output
    and the log of network requests issued) with Python exceptions as an
    error result.  Everything the script calls but does not define (the
    URL parser, the argument parser, the HTTP client, wget, sha256sum, the
    HTML parser, the regular expression engine, the iteration order of a
    set) is a field of the record [Env]; the theorems hold for every
    environment, and small concrete environments are used to run the model
    on examples. *)

From Stdlib Require Import String Ascii List ZArith Lia Bool.
From stdpp Require Import base option list strings gmap.

Open Scope string_scope.
Open Scope list_scope.

(** ** Python strings *)

Module PyStr.

(** [s.split(sep)] for a one-character separator: never empty. *)
Fixpoint split (sep : ascii) (s : string) : list string :=
  match s with
  | EmptyString => [EmptyString]
  | String c r =>
      if Ascii.eqb c sep then EmptyString :: split sep r
      else match split sep r with
           | x :: xs => String c x :: xs
           | [] => [String c EmptyString]
           end
  end.

(** [l[0]] and [l[-1]] on the result of a split, which is never empty. *)
Definition first (l : list string) : string := List.hd EmptyString l.
Definition final (l : list string) : string := List.last l EmptyString.

(** [sub in s] *)
Fixpoint contains (sub s : string) : bool :=
  String.prefix sub s ||
  match s with
  | EmptyString => false
  | String _ r => contains sub r
  end.

(** [sep.join(l)] *)
Fixpoint join (sep : string) (l : list string) : string :=
  match l with
  | [] => EmptyString
  | [x] => x
  | x :: xs => x +:+ sep +:+ join sep xs
  end.

(** The characters [str.split()] without an argument treats as blanks. *)
Definition is_whitespace (c : ascii) : bool :=
  let n := nat_of_ascii c in
  Nat.eqb n 32 || (Nat.leb 9 n && Nat.leb n 13).

Fixpoint no_whitespace (s : string) : bool :=
  match s with
  | EmptyString => true
  | String c r => negb (is_whitespace c) && no_whitespace r
  end.

Fixpoint skip_whitespace (s : string) : string :=
  match s with
  | EmptyString => EmptyString
  | String c r => if is_whitespace c then skip_whitespace r else s
  end.

Fixpoint take_word (s : string) : string :=
  match s with
  | EmptyString => EmptyString
  | String c r => if is_whitespace c then EmptyString else String c (take_word r)
  end.

(** The first whitespace-delimited token of a text, when it has one:
    this is the wording of the specification, to be compared with what
    [split(' ')[0]] computes. *)
Definition first_whitespace_token (s : string) : option string :=
  match take_word (skip_whitespace s) with
  | EmptyString => None
  | w => Some w
  end.

End PyStr.

(** ** Results and exceptions *)

Inductive errno := EEXIST | ENOENT | ENOTDIR | EISDIR | ELOOP.

(** The exceptions the script can end with, named as Python names them. *)
Inductive exn :=
| Exception (msg : string)
| KeyError (msg : string)
| OSError (code : errno)
| RequestException
| ValueError
| HTMLParseError
| RegexError
| RuntimeError (msg : string)
| SystemExit (code : Z).

Inductive result (A : Type) :=
| Ok (a : A)
| Raise (e : exn).
Arguments Ok {A} a.
Arguments Raise {A} e.

(** The failures of the specification's taxonomy, as the exceptions the
    script raises for them. *)
Definition UnknownChannel (channel : string) : exn :=
  Exception ("Unknown channel: " +:+ channel).
Definition UnresolvableLocation : exn := Exception "Cannot find image location".
Definition CorruptedDownload : exn := Exception "Download corrupted - please retry.".
Definition NoImageFound : exn := KeyError "pop from an empty set".

(** ** The file system

    A node is named by the list of its path components, from the root.
    Paths are normalised lexically (empty and [.] components dropped, [..]
    removes the component before it), so a directory on the way to a node
    is taken to be a real directory, not a link to one.  The root always
    exists and is a directory. *)

Inductive node :=
| File (content : string)
| Link (target : string)
| Dir.

#[global] Instance node_eq_dec : EqDecision node.
Proof. solve_decision. Defined.

Definition is_link (n : node) : bool :=
  match n with Link _ => true | _ => false end.

Module Fs.

Definition norm_step (acc : list string) (c : string) : list string :=
  if decide (c = "" ∨ c = ".") then acc
  else if decide (c = "..") then removelast acc
  else acc ++ [c].

Definition components (base : list string) (p : string) : list string :=
  fold_left norm_step (PyStr.split "/" p) base.

Definition is_absolute (p : string) : bool := String.prefix "/" p.

(** The node a path string names when used from directory [base]. *)
Definition key (base : list string) (p : string) : list string :=
  if is_absolute p then components [] p else components base p.

Definition parent (k : list string) : list string := removelast k.

Definition node_at (fs : gmap (list string) node) (k : list string) : option node :=
  match k with
  | [] => Some Dir
  | _ => fs !! k
  end.

(** How many links one lookup follows before giving up (ELOOP). *)
Definition max_symlinks : nat := 40.

(** Follow the links at [k]: the first name on the way that is not a link
    (it may name nothing). *)
Fixpoint resolve (fuel : nat) (fs : gmap (list string) node) (k : list string)
  : option (list string) :=
  match node_at fs k with
  | Some (Link t) =>
      match fuel with
      | O => None
      | S fuel' =>
          if decide (t = "") then None
          else resolve fuel' fs (key (parent k) t)
      end
  | _ => Some k
  end.

(** [stat]: the node behind a name, links followed. *)
Definition stat (fs : gmap (list string) node) (k : list string) : option node :=
  match resolve max_symlinks fs k with
  | Some k' => node_at fs k'
  | None => None
  end.

(** What opening [k] for writing (creating or truncating it) and storing
    [body] leaves behind; nothing changes when the file cannot be opened. *)
Definition write (fs : gmap (list string) node) (k : list string) (body : string)
  : gmap (list string) node :=
  match resolve max_symlinks fs k with
  | Some k' =>
      match node_at fs k' with
      | Some (File _) => <[k' := File body]> fs
      | None =>
          match node_at fs (parent k') with
          | Some Dir => <[k' := File body]> fs
          | _ => fs
          end
      | _ => fs
      end
  | None => fs
  end.

(** The symbolic links of a file system. *)
Definition links (fs : gmap (list string) node) : gmap (list string) node :=
  filter (λ kn, is_link kn.2 = true) fs.



End Fs.

(** ** The world and the environment *)

Inductive request :=
| HEAD (url : string)
| GET (url : string)
| WGET (url : string).

Record world := World {
  fs : gmap (list string) node;
  cwd : string;
  stdout : list string;
  net_log : list request
}.

(** [urlparse.urlparse(url)]: the three fields the script reads. *)
Record ParseResult := MkParse {
  url_scheme : string;
  url_netloc : string;
  url_path : string
}.

(** The namespace [parser.parse_args()] returns. *)
Record Args := MkArgs {
  arg_path : string;
  arg_type : string;
  arg_url : string;
  arg_docker_image_name : option string;
  arg_skip : bool;
  arg_force_redownload : bool
}.

(** A response to [requests.head]: the status and the Location header. *)
Record response := Response {
  status_code : Z;
  location : option string
}.

(** Everything the script calls and does not define.  The network answers
    may depend on the requests made so far; an answer [None] is a request
    that raises.  [wget_body] is what wget stores in its output file
    ([None]: it gives up before opening it).  [sha256sum_stdout fs cwd p] is
    what [sha256sum p] prints on its standard output.  [html_text_segments]
    lists the text segments [HTMLParser.feed] hands to [handle_data], with
    the parse error that ends the scan if there is one.  [re_search] is
    [re.search(regexp, data)], giving [group(0)] of the match.
    [set_pop_choice] decides which element [set.pop()] removes. *)
Record Env := MkEnv {
  requests_installed : bool;
  urlparse : string → result ParseResult;
  parse_args : list string → result Args;
  http_head : list request → string → option response;
  http_get : list request → string → option string;
  wget_body : list request → string → option string;
  sha256sum_stdout : gmap (list string) node → string → string → string;
  html_text_segments : string → list string * option exn;
  re_search : string → string → result (option string);
  set_pop_choice : list string → nat;
  recursion_limit : nat
}.

(** ** Computations: state passing with exceptions *)

Definition M (A : Type) : Type := world → result A * world.

Definition ret {A} (a : A) : M A := λ w, (Ok a, w).
Definition raise {A} (e : exn) : M A := λ w, (Raise e, w).
Definition bind {A B} (m : M A) (k : A → M B) : M B :=
  λ w, match m w with
       | (Ok a, w') => k a w'
       | (Raise e, w') => (Raise e, w')
       end.
Definition lift {A} (r : result A) : M A := λ w, (r, w).
Definition get_world : M world := λ w, (Ok w, w).

Declare Scope py_scope.
Delimit Scope py_scope with py.
Notation "x <- m ;; k" := (bind m (λ x, k))
  (at level 100, m at level 99, k at level 200, right associativity) : py_scope.
Notation "m ;;; k" := (bind m (λ _, k))
  (at level 100, k at level 200, right associativity) : py_scope.
Open Scope py_scope.

(** The exit status of the process for an outcome of the script. *)
Definition exit_status {A} (r : result A) : Z :=
  match r with
  | Ok _ => 0
  | Raise (SystemExit n) => n
  | Raise _ => 1
  end.

(** ** The operating system and the network, as the script uses them *)

Section Script.

Variable E : Env.

Definition key_of (w : world) (p : string) : list string :=
  Fs.key (Fs.components [] (cwd w)) p.

(** [lstat]: the node a path names, links not followed; the empty path
    names nothing. *)
Definition lstat (w : world) (p : string) : option node :=
  if decide (p = "") then None else Fs.node_at (fs w) (key_of w p).

Definition os_getcwd : M string := λ w, (Ok (cwd w), w).

Definition print (line : string) : M unit :=
  λ w, (Ok tt, World (fs w) (cwd w) (stdout w ++ [line]) (net_log w)).

Definition os_path_islink (p : string) : M bool :=
  λ w, (Ok (match lstat w p with Some (Link _) => true | _ => false end), w).

(** Whether [p] names a regular file, links followed. *)
Definition isfile (w : world) (p : string) : bool :=
  if decide (p = "") then false
  else match Fs.stat (fs w) (key_of w p) with
       | Some (File _) => true
       | _ => false
       end.

Definition os_path_isfile (p : string) : M bool := λ w, (Ok (isfile w p), w).

Definition os_unlink (p : string) : M unit :=
  λ w, match lstat w p with
       | None => (Raise (OSError ENOENT), w)
       | Some Dir => (Raise (OSError EISDIR), w)
       | Some _ =>
           (Ok tt, World (delete (key_of w p) (fs w)) (cwd w) (stdout w) (net_log w))
       end.

(** [os.symlink(target, p)].  The place of [p] is read off the path
    ([key_of]); where a directory above it is itself a symbolic link the
    kernel goes through the link, which this reading does not follow: what
    is stated about the place of a new link is stated for names with
    [Fs.no_link_above], or with a directory known to be at the parent. *)
Definition os_symlink (target p : string) : M unit :=
  λ w, if decide (p = "" ∨ target = "") then (Raise (OSError ENOENT), w)
       else match Fs.node_at (fs w) (key_of w p) with
            | Some _ => (Raise (OSError EEXIST), w)
            | None =>
                match Fs.node_at (fs w) (Fs.parent (key_of w p)) with
                | Some Dir =>
                    (Ok tt, World (<[key_of w p := Link target]> (fs w))
                                  (cwd w) (stdout w) (net_log w))
                | Some _ => (Raise (OSError ENOTDIR), w)
                | None => (Raise (OSError ENOENT), w)
                end
            end.

(** The three lines both aliasing steps end with (105-107 and 124-126):
    [if os.path.islink(p): os.unlink(p)] and then [os.symlink(target, p)]. *)
Definition relink (target p : string) : M unit :=
  islink <- os_path_islink p ;;
  (if islink : bool then os_unlink p else ret tt) ;;;
  os_symlink target p.

Definition log_request (r : request) (w : world) : world :=
  World (fs w) (cwd w) (stdout w) (net_log w ++ [r]).

Definition requests_head (url : string) : M response :=
  λ w, match http_head E (net_log w) url with
       | Some r => (Ok r, log_request (HEAD url) w)
       | None => (Raise RequestException, log_request (HEAD url) w)
       end.

Definition requests_get (url : string) : M string :=
  λ w, match http_get E (net_log w) url with
       | Some text => (Ok text, log_request (GET url) w)
       | None => (Raise RequestException, log_request (GET url) w)
       end.




(** [os.system("wget <url> -O <path>/<file> --progress=dot:giga")]: the
    words of the command are taken to reach wget as they are written, and
    wget to store what it receives in the output file; the exit status of
    the command is dropped by the script.  For a URL, a path or a file name
    that is no [shell_word] the shell may run something else: what is stated
    about the place of the downloaded file is stated for shell words. *)
Definition os_system_wget (url path file : string) : M unit :=
  λ w, match wget_body E (net_log w) url with
       | Some body =>
           (Ok tt, World (Fs.write (fs w) (key_of w (path +:+ "/" +:+ file)) body)
                         (cwd w) (stdout w) (net_log w ++ [WGET url]))
       | None => (Ok tt, log_request (WGET url) w)
       end.

(** [os.popen('sha256sum <path>/<file>').read()] *)
Definition os_popen_sha256sum (path file : string) : M string :=
  λ w, (Ok (sha256sum_stdout E (fs w) (cwd w) (path +:+ "/" +:+ file)), w).

(** ** The script *)

(** Python's truth value of an optional string: [None] and the empty
    string are false. *)
Definition truthy (s : option string) : bool :=
  match s with
  | Some (String _ _) => true
  | _ => false
  end.

(** [ImageFinder.__init__]: the pattern searched for. *)
Definition ImageFinder_regexp (docker_image_name : option string) : string :=
  if truthy docker_image_name
  then default "" docker_image_name +:+ ".*x86_64-.*\.tar\.xz"
  else ".*KVM.*x86_64-.*\.qcow2".

(** [ImageFinder.handle_data] *)
Definition handle_data (regexp : string) (images : gset string) (data : string)
  : result (gset string) :=
  match re_search E regexp data with
  | Ok (Some m) => Ok ({[ m ]} ∪ images)
  | Ok None => Ok images
  | Raise e => Raise e
  end.

Fixpoint handle_all (regexp : string) (images : gset string) (segments : list string)
  : result (gset string) :=
  match segments with
  | [] => Ok images
  | data :: rest =>
      match handle_data regexp images data with
      | Ok images' => handle_all regexp images' rest
      | Raise e => Raise e
      end
  end.

(** [parser.feed(text)] on a fresh [ImageFinder]: the set [images] it is
    left with. *)
Definition feed (docker_image_name : option string) (text : string)
  : result (gset string) :=
  match handle_all (ImageFinder_regexp docker_image_name) ∅
                   (html_text_segments E text).1 with
  | Ok images =>
      match (html_text_segments E text).2 with
      | Some e => Raise e
      | None => Ok images
      end
  | Raise e => Raise e
  end.

(** [ImageFinder.get_image]: [self.images.pop()] *)
Definition get_image (images : gset string) : result string :=
  let l := elements images in
  match l !! (set_pop_choice E l mod length l) with
  | Some image => Ok image
  | None => Raise (KeyError "pop from an empty set")
  end.

(** The recursion is bounded by [fuel], as Python bounds it by its
    recursion limit.  A redirect without a Location header makes the
    recursive call [requests.head(None)], which raises before any request
    is sent. *)
Fixpoint get_versioned_image_link (fuel : nat) (url : string) : M string :=
  match fuel with
  | O => raise (RuntimeError "maximum recursion depth exceeded")
  | S fuel' =>
      image <- requests_head url ;;
      if ((status_code image =? 302) || (status_code image =? 301))%Z then
        match location image with
        | Some next => get_versioned_image_link fuel' next
        | None => raise RequestException
        end
      else if (status_code image =? 200)%Z then ret url
      else raise (Exception "Cannot find image location")
  end.

Definition get_filename (url : string) : M string :=
  p <- lift (urlparse E url) ;;
  ret (PyStr.final (PyStr.split "/" (url_path p))).

Definition url_base : list (string * string) :=
  [ ("release",
     "http://download.suse.de/ibs/SUSE:/SLE-12-SP3:/Update:/Products:/CASP20/");
    ("staging_a",
     "http://download.suse.de/ibs/SUSE:/SLE-12-SP3:/Update:/Products:/CASP20:/Staging:/A/");
    ("staging_b",
     "http://download.suse.de/ibs/SUSE:/SLE-12-SP3:/Update:/Products:/CASP20:/Staging:/B/");
    ("devel",
     "http://download.suse.de/ibs/Devel:/CASP:/Head:/ControllerNode/") ].

Fixpoint dict_get (d : list (string * string)) (k : string) : option string :=
  match d with
  | [] => None
  | (k', v) :: rest => if String.eqb k k' then Some v else dict_get rest k
  end.

Definition images_subdir (docker_image_name : option string) : string :=
  if truthy docker_image_name then "images_container_derived" else "images".

Definition get_channel_url (url : string) (docker_image_name : option string)
  : M string :=
  p <- lift (urlparse E url) ;;
  let channel := url_netloc p in
  match dict_get url_base channel with
  | None => raise (Exception ("Unknown channel: " +:+ channel))
  | Some base =>
      let base_url := base +:+ images_subdir docker_image_name in
      r <- requests_get base_url ;;
      images <- lift (feed docker_image_name r) ;;
      image <- lift (get_image images) ;;
      ret (base_url +:+ "/" +:+ image)
  end.

(** Lines 88-102 of [download_file]: fetch the published digest, download,
    recompute the digest and compare. *)
Definition fetch_and_verify (versioned_url path actual_name : string) : M unit :=
  remote_sha <- requests_get (versioned_url +:+ ".sha256") ;;
  os_system_wget versioned_url path actual_name ;;;
  local_sha <- os_popen_sha256sum path actual_name ;;
  if negb (PyStr.contains (PyStr.first (PyStr.split " " local_sha)) remote_sha) then
    print ("Local SHA: " +:+ local_sha) ;;;
    print ("Remote SHA: " +:+ remote_sha) ;;;
    raise (Exception "Download corrupted - please retry.")
  else ret tt.

(** Lines 104-107 of [download_file]: the alias link. *)
Definition alias_link (path type expected_name actual_name : string) : M unit :=
  if negb (String.eqb expected_name actual_name) then
    islink <- os_path_islink (path +:+ "/" +:+ type +:+ "-" +:+ expected_name) ;;
    (if islink : bool
     then os_unlink (path +:+ "/" +:+ type +:+ "-" +:+ expected_name)
     else ret tt) ;;;
    os_symlink actual_name (path +:+ "/" +:+ type +:+ "-" +:+ expected_name)
  else ret tt.

Definition download_file (path type url expected_name : string)
    (force_redownload : bool) : M unit :=
  versioned_url <- get_versioned_image_link (recursion_limit E) url ;;
  actual_name <- get_filename versioned_url ;;
  present <- os_path_isfile actual_name ;;
  (if negb present || force_redownload
   then fetch_and_verify versioned_url path actual_name
   else ret tt) ;;;
  alias_link path type expected_name actual_name.

Definition use_remote_file (path type url : string) (force_redownload : bool)
  : M unit :=
  expected_name <- get_filename url ;;
  download_file path type url expected_name force_redownload.

Definition use_local_file (url : string) : M unit :=
  expected_name <- get_filename url ;;
  p <- lift (urlparse E url) ;;
  let path := url_path p in
  cur_path <- os_getcwd ;;
  print (cur_path +:+ "/" +:+ expected_name) ;;;
  if negb (String.eqb (cur_path +:+ "/" +:+ expected_name) path) then
    islink <- os_path_islink expected_name ;;
    (if islink : bool then os_unlink expected_name else ret tt) ;;;
    os_symlink path expected_name
  else ret tt.

(** [use_channel_file] reads the flag from the global [args], not from its
    own parameter. *)
Definition use_channel_file (args : Args) (path type url : string)
    (docker_image_name : option string) (force_redownload : bool) : M unit :=
  remote_url <- get_channel_url url docker_image_name ;;
  p <- lift (urlparse E url) ;;
  let expected_name := url_netloc p in
  download_file path type remote_url expected_name (arg_force_redownload args).

(** The script from its first line: the import of [requests], then the
    [__main__] block on the command line [argv]. *)
Definition main (argv : list string) : M unit :=
  if negb (requests_installed E) then
    print "Please install python-requests" ;;;
    raise (SystemExit 1)
  else
    args <- lift (parse_args E argv) ;;
    if arg_skip args then raise (SystemExit 0)
    else
      p1 <- lift (urlparse E (arg_url args)) ;;
      if String.eqb (url_scheme p1) "http" || String.eqb (url_scheme p1) "https" then
        use_remote_file (arg_path args) (arg_type args) (arg_url args)
                        (arg_force_redownload args)
      else
        p2 <- lift (urlparse E (arg_url args)) ;;
        if String.eqb (url_scheme p2) "file" then use_local_file (arg_url args)
        else
          p3 <- lift (urlparse E (arg_url args)) ;;
          if String.eqb (url_scheme p3) "channel" then
            use_channel_file args (arg_path args) (arg_type args) (arg_url args)
                             (arg_docker_image_name args)
                             (arg_force_redownload args)
          else
            print ("Unknown URL Type: " +:+ arg_url args) ;;;
            raise (SystemExit 1).

End Script.

(** ** Redirect chains

    [redirect_chain E log url n st log' final]: starting with the requests
    [log] already made, the HEAD request for [url] begins a chain of [n]
    redirects (status 301 or 302, each with a Location header) that ends at
    [final], whose own response has status [st], neither 301 nor 302;
    [log'] is the request log at the end. *)
Inductive redirect_chain (E : Env)
  : list request → string → nat → Z → list request → string → Prop :=
| chain_end log url r :
    http_head E log url = Some r →
    status_code r ≠ 301%Z → status_code r ≠ 302%Z →
    redirect_chain E log url 0 (status_code r) (log ++ [HEAD url]) url
| chain_hop log url r next n st log' final :
    http_head E log url = Some r →
    status_code r = 301%Z ∨ status_code r = 302%Z →
    location r = Some next →
    redirect_chain E (log ++ [HEAD url]) next n st log' final →
    redirect_chain E log url (S n) st log' final.

(** ** A small environment to run the script in *)

Module Demo.

(** [s] cut at the first occurrence of [sep]. *)
Fixpoint cut (sep s : string) : option (string * string) :=
  if String.prefix sep s
  then Some (EmptyString, String.substring (String.length sep)
                            (String.length s - String.length sep) s)
  else match s with
       | EmptyString => None
       | String c r =>
           match cut sep r with
           | Some (a, b) => Some (String c a, b)
           | None => None
           end
       end.

(** URLs of the shape [scheme://host/path], as [urlparse] splits them. *)
Definition parse_url (url : string) : result ParseResult :=
  match cut "://" url with
  | Some (sch, rest) =>
      let host := PyStr.first (PyStr.split "/" rest) in
      Ok (MkParse sch host
            (String.substring (String.length host)
               (String.length rest - String.length host) rest))
  | None => Ok (MkParse "" "" url)
  end.

(** The argument parser on plain command lines: the three positionals and
    the options spelled out in full, in any order.  A missing or surplus
    positional, an unknown option or an option without its value is refused
    as [argparse] refuses it, with exit status 2.  ([argparse] also takes
    abbreviated options and [--name=value], which no example here uses.) *)
Fixpoint parse_loop (argv : list string) (pos : list string)
    (name : option string) (skip force : bool) : result Args :=
  match argv with
  | [] =>
      match pos with
      | [p; t; u] => Ok (MkArgs p t u name skip force)
      | _ => Raise (SystemExit 2)
      end
  | a :: rest =>
      if String.eqb a "--skip" then parse_loop rest pos name true force
      else if String.eqb a "--force-redownload" then parse_loop rest pos name skip true
      else if String.eqb a "--docker-image-name" then
        match rest with
        | v :: rest' =>
            if String.prefix "-" v then Raise (SystemExit 2)
            else parse_loop rest' pos (Some v) skip force
        | [] => Raise (SystemExit 2)
        end
      else if String.prefix "-" a then Raise (SystemExit 2)
      else parse_loop rest (pos ++ [a]) name skip force
  end.

Definition parse_argv (argv : list string) : result Args :=
  parse_loop argv [] None false false.

Definition newline : string := String (ascii_of_nat 10) EmptyString.

Definition assoc {A} (l : list (string * A)) (k : string) : option A :=
  snd <$> List.find (λ kv, String.eqb k kv.1) l.

Definition heads : list (string * response) :=
  [ ("http://mirror/latest.qcow2", Response 302 (Some "http://mirror/r2"));
    ("http://mirror/r2", Response 301 (Some "http://mirror/img-1.2.qcow2"));
    ("http://mirror/img-1.2.qcow2", Response 200 None);
    ("http://mirror/bad.qcow2", Response 200 None);
    ("http://mirror/old", Response 302 (Some "http://mirror/gone"));
    ("http://mirror/gone", Response 404 None);
    ("http://download.suse.de/ibs/Devel:/CASP:/Head:/ControllerNode/images/SUSE-CaaS-Platform-2.0-KVM-and-Xen.x86_64-2.0.0-Build1.1.qcow2",
     Response 200 None) ].

Definition listing : string :=
  "Index of /images|SUSE-CaaS-Platform-2.0-KVM-and-Xen.x86_64-2.0.0-Build1.1.qcow2|SUSE-CaaS-Platform-2.0-KVM-and-Xen.x86_64-2.0.0-Build1.1.qcow2.sha256".

Definition pages : list (string * string) :=
  [ ("http://mirror/img-1.2.qcow2.sha256", "abc123  img-1.2.qcow2" +:+ newline);
    ("http://mirror/bad.qcow2.sha256", "ffff00  bad.qcow2" +:+ newline);
    ("http://download.suse.de/ibs/Devel:/CASP:/Head:/ControllerNode/images", listing);
    ("http://download.suse.de/ibs/Devel:/CASP:/Head:/ControllerNode/images/SUSE-CaaS-Platform-2.0-KVM-and-Xen.x86_64-2.0.0-Build1.1.qcow2.sha256",
     "abc123  SUSE-CaaS-Platform-2.0-KVM-and-Xen.x86_64-2.0.0-Build1.1.qcow2" +:+ newline);
    ("http://download.suse.de/ibs/SUSE:/SLE-12-SP3:/Update:/Products:/CASP20/images",
     "Index of /images") ].

(** The digest tool of the demonstration: it knows one content. *)
Definition sha256sum (fs : gmap (list string) node) (cwd p : string) : string :=
  match Fs.stat fs (Fs.key (Fs.components [] cwd) p) with
  | Some (File c) =>
      (if String.eqb c "DATA" then "abc123" else "000000") +:+ "  " +:+ p +:+ newline
  | _ => ""
  end.

(** The pattern without a docker image name, on the names of the
    demonstration: a name with [KVM], then [x86_64-], ending in [.qcow2]
    matches as a whole. *)
Definition search (regexp data : string) : result (option string) :=
  if String.eqb regexp ".*KVM.*x86_64-.*\.qcow2" then
    match cut "KVM" data with
    | Some (_, rest) =>
        match cut "x86_64-" rest with
        | Some (_, rest') =>
            if String.eqb (PyStr.final (PyStr.split "." rest')) "qcow2"
            then Ok (Some data) else Ok None
        | None => Ok None
        end
    | None => Ok None
    end
  else Ok None.

Definition env : Env :=
  {| requests_installed := true;
     urlparse := parse_url;
     parse_args := parse_argv;
     http_head := λ _ url, assoc heads url;
     http_get := λ _ url, assoc pages url;
     wget_body := λ _ _, Some "DATA";
     sha256sum_stdout := sha256sum;
     html_text_segments := λ text, (PyStr.split "|" text, None);
     re_search := search;
     set_pop_choice := λ _, 0;
     recursion_limit := 1000 |}.

(** The same machine without the [requests] module. *)
Definition env_without_requests : Env :=
  {| requests_installed := false;
     urlparse := parse_url;
     parse_args := parse_argv;
     http_head := λ _ url, assoc heads url;
     http_get := λ _ url, assoc pages url;
     wget_body := λ _ _, Some "DATA";
     sha256sum_stdout := sha256sum;
     html_text_segments := λ text, (PyStr.split "|" text, None);
     re_search := search;
     set_pop_choice := λ _, 0;
     recursion_limit := 1000 |}.

(** A destination directory [/srv/images] and a working directory
    [/home/user]. *)
Definition dirs : gmap (list string) node :=
  <[ ["srv"] := Dir ]> (<[ ["srv"; "images"] := Dir ]>
  (<[ ["home"] := Dir ]> (<[ ["home"; "user"] := Dir ]> ∅))).

Definition start (fs : gmap (list string) node) (cwd : string) : world :=
  World fs cwd [] [].

(** A server that answers every HEAD request with a redirect to the URL
    asked for. *)
Definition env_loop : Env :=
  {| requests_installed := true;
     urlparse := parse_url;
     parse_args := parse_argv;
     http_head := λ _ url, Some (Response 302 (Some url));
     http_get := λ _ url, assoc pages url;
     wget_body := λ _ _, Some "DATA";
     sha256sum_stdout := sha256sum;
     html_text_segments := λ text, (PyStr.split "|" text, None);
     re_search := search;
     set_pop_choice := λ _, 0;
     recursion_limit := 1000 |}.

End Demo.

(** * Properties *)

(** ** Sequencing *)

Lemma bind_ok {A B} (m : M A) (k : A → M B) w a w' :
  m w = (Ok a, w') → bind m k w = k a w'.
Proof. intros H. unfold bind. now rewrite H. Qed.

Lemma bind_raise {A B} (m : M A) (k : A → M B) w e w' :
  m w = (Raise e, w') → bind m k w = (Raise e, w').
Proof. intros H. unfold bind. now rewrite H. Qed.

Lemma bind_lift_ok {A B} (r : result A) (k : A → M B) w a :
  r = Ok a → bind (lift r) k w = k a w.
Proof. intros ->. reflexivity. Qed.

(** ** Strings *)

Lemma split_nonempty sep s : PyStr.split sep s ≠ [].
Proof.
  destruct s as [|c r]; simpl; [discriminate|].
  destruct (Ascii.eqb c sep); [discriminate|].
  destruct (PyStr.split sep r); discriminate.
Qed.

Lemma prefix_app a b : String.prefix a (a +:+ b) = true.
Proof.
  induction a as [|c a IH]; simpl.
  - now destruct b.
  - destruct (ascii_dec c c); [exact IH|congruence].
Qed.

Lemma prefix_true_app a s : String.prefix a s = true → ∃ b, s = a +:+ b.
Proof.
  revert s. induction a as [|c a IH]; intros s H.
  - exists s. reflexivity.
  - destruct s as [|d s]; simpl in H; [discriminate|].
    destruct (ascii_dec c d) as [->|]; [|discriminate].
    destruct (IH _ H) as [b ->]. now exists b.
Qed.

(** [contains] is the substring relation. *)
Lemma contains_spec sub s :
  PyStr.contains sub s = true ↔ ∃ a b, s = a +:+ sub +:+ b.
Proof.
  split.
  - induction s as [|c s IH]; intros H; cbn [PyStr.contains] in H.
    + rewrite orb_false_r in H. destruct (prefix_true_app _ _ H) as [b Hb].
      now exists EmptyString, b.
    + apply orb_true_iff in H as [H|H].
      * destruct (prefix_true_app _ _ H) as [b Hb]. now exists EmptyString, b.
      * destruct (IH H) as (a & b & ->). now exists (String c a), b.
  - intros (a & b & ->). induction a as [|c a IH].
    + change ("" +:+ sub +:+ b) with (sub +:+ b).
      assert (String.prefix sub (sub +:+ b) = true) as Hp by apply prefix_app.
      destruct (sub +:+ b); cbn [PyStr.contains]; rewrite Hp; reflexivity.
    + change (String c a +:+ sub +:+ b) with (String c (a +:+ sub +:+ b)).
      cbn [PyStr.contains]. rewrite IH. apply orb_true_r.
Qed.

(** Splitting then joining gives the text back, and no piece holds the
    separator: the last piece of [split('/')] is the last path segment. *)
Lemma join_split sep s : PyStr.join (String sep EmptyString) (PyStr.split sep s) = s.
Proof.
  induction s as [|c r IH]; [reflexivity|]. cbn [PyStr.split].
  destruct (Ascii.eqb_spec c sep) as [->|Hne].
  - pose proof (split_nonempty sep r) as Hn.
    destruct (PyStr.split sep r) as [|x xs]; [congruence|].
    cbn [PyStr.join]. cbn [PyStr.join] in IH. now rewrite IH.
  - destruct (PyStr.split sep r) as [|x xs] eqn:Hs.
    + now apply split_nonempty in Hs.
    + destruct xs as [|y ys]; cbn [PyStr.join] in *; now rewrite <- IH.
Qed.

Lemma split_pieces sep s :
  Forall (λ x, PyStr.contains (String sep EmptyString) x = false) (PyStr.split sep s).
Proof.
  induction s as [|c r IH]; cbn [PyStr.split].
  - constructor; [reflexivity|constructor].
  - destruct (Ascii.eqb_spec c sep) as [->|Hne].
    + constructor; [reflexivity|exact IH].
    + destruct (PyStr.split sep r) as [|x xs]; [constructor; [|constructor]|].
      * cbn. destruct (ascii_dec sep c); [congruence|reflexivity].
      * inversion IH as [|? ? Hx Hxs]; subst. constructor; [|exact Hxs].
        cbn [PyStr.contains]. rewrite Hx.
        cbn. destruct (ascii_dec sep c); [congruence|reflexivity].
Qed.

(** On a line that starts with a non-empty word free of blanks followed
    by a space, as [sha256sum] prints, [split(' ')[0]] is the first
    whitespace-delimited token. *)
Lemma split_space_first_word tok rest :
  PyStr.no_whitespace tok = true →
  PyStr.first (PyStr.split " " (tok +:+ " " +:+ rest)) = tok.
Proof.
  induction tok as [|c tok IH]; simpl; intros H; [reflexivity|].
  apply andb_true_iff in H as [Hc Hr].
  destruct (Ascii.eqb_spec c " ") as [->|Hne]; [discriminate|].
  specialize (IH Hr). unfold PyStr.first in *.
  destruct (PyStr.split " " (tok +:+ " " +:+ rest)) eqn:Hs.
  - now apply split_nonempty in Hs.
  - simpl in *. now rewrite IH.
Qed.

Lemma take_word_word tok rest :
  PyStr.no_whitespace tok = true →
  PyStr.take_word (tok +:+ " " +:+ rest) = tok.
Proof.
  induction tok as [|c tok IH]; simpl; intros H; [reflexivity|].
  apply andb_true_iff in H as [Hc Hr].
  apply negb_true_iff in Hc. rewrite Hc. now rewrite IH.
Qed.

Lemma first_whitespace_token_word tok rest :
  tok ≠ "" → PyStr.no_whitespace tok = true →
  PyStr.first_whitespace_token (tok +:+ " " +:+ rest) = Some tok.
Proof.
  intros Hne Hw. unfold PyStr.first_whitespace_token.
  destruct tok as [|c tok]; [congruence|].
  assert (PyStr.skip_whitespace (String c tok +:+ " " +:+ rest)
          = String c tok +:+ " " +:+ rest) as ->.
  { simpl in *. apply andb_true_iff in Hw as [Hc _].
    apply negb_true_iff in Hc. now rewrite Hc. }
  now rewrite take_word_word.
Qed.

Lemma append_assoc (a b c : string) : (a +:+ b) +:+ c = a +:+ b +:+ c.
Proof.
  induction a as [|x a IH]; [reflexivity|].
  change (String x ((a +:+ b) +:+ c) = String x (a +:+ b +:+ c)).
  now rewrite IH.
Qed.

(** ** The channel resolver *)

Lemma dict_get_not_in d k : k ∉ d.*1 → dict_get d k = None.
Proof.
  induction d as [|[k' v] d IH]; simpl; intros H; [reflexivity|].
  apply not_elem_of_cons in H as [Hne Hin].
  destruct (String.eqb_spec k k'); [congruence|auto].
Qed.

(** The table has the four channels and nothing else. *)
Lemma url_base_channels :
  url_base.*1 = ["release"; "staging_a"; "staging_b"; "devel"].
Proof. reflexivity. Qed.

Lemma get_image_empty E : get_image E ∅ = Raise NoImageFound.
Proof. unfold get_image. now rewrite elements_empty. Qed.

Lemma get_image_elem E (images : gset string) :
  images ≠ ∅ → ∃ image, get_image E images = Ok image ∧ image ∈ images.
Proof.
  intros Hne. unfold get_image.
  assert (elements images ≠ []) as Hl.
  { intros Hnil. apply Hne. apply leibniz_equiv. now apply elements_empty_inv. }
  set (l := elements images) in *.
  assert (set_pop_choice E l mod length l < length l) as Hlt.
  { apply Nat.mod_upper_bound. destruct l; [congruence|simpl; lia]. }
  apply lookup_lt_is_Some_2 in Hlt as [image Hi]. rewrite Hi.
  exists image. split; [reflexivity|].
  apply elem_of_elements. eapply list_elem_of_lookup_2. exact Hi.
Qed.

(** Every name collected by the scan is the match of the pattern in one of
    the text segments. *)
Lemma handle_all_matches E regexp segments : ∀ (acc images : gset string),
  handle_all E regexp acc segments = Ok images →
  ∀ m, m ∈ images →
    m ∈ acc ∨ ∃ data, data ∈ segments ∧ re_search E regexp data = Ok (Some m).
Proof.
  induction segments as [|data rest IH]; simpl; intros acc images H m Hm.
  - left. now inversion H; subst.
  - unfold handle_data in H.
    destruct (re_search E regexp data) as [[m'|]|e] eqn:Hs; [| |discriminate].
    + destruct (IH _ _ H m Hm) as [Hacc|(d & Hd & Hr)].
      * apply elem_of_union in Hacc as [Hone|Hacc]; [|now left].
        apply elem_of_singleton in Hone as ->.
        right. exists data. split; [left|exact Hs].
      * right. exists d. split; [now right|exact Hr].
    + destruct (IH _ _ H m Hm) as [Hacc|(d & Hd & Hr)]; [now left|].
      right. exists d. split; [now right|exact Hr].
Qed.

Lemma feed_matches E d text (images : gset string) :
  feed E d text = Ok images →
  ∀ m, m ∈ images →
    ∃ data, data ∈ (html_text_segments E text).1
            ∧ re_search E (ImageFinder_regexp d) data = Ok (Some m).
Proof.
  unfold feed. intros H m Hm.
  destruct (handle_all E (ImageFinder_regexp d) ∅ (html_text_segments E text).1)
    as [images'|] eqn:Ha; [|discriminate].
  destruct (html_text_segments E text).2; [discriminate|].
  inversion H; subst images'.
  destruct (handle_all_matches _ _ _ _ _ Ha m Hm) as [Hemp|Hd]; [|exact Hd].
  now apply not_elem_of_empty in Hemp.
Qed.

(** C3: for a channel URL whose host is none of [release], [staging_a],
    [staging_b], [devel], channel resolution fails with UnknownChannel and
    leaves the world as it was: no request is added to the network log, the
    GET of the directory listing is never issued. *)
Theorem get_channel_url_unknown_channel E url d w p :
  urlparse E url = Ok p →
  url_netloc p ∉ ["release"; "staging_a"; "staging_b"; "devel"] →
  get_channel_url E url d w = (Raise (UnknownChannel (url_netloc p)), w).
Proof.
  intros Hp Hn. unfold get_channel_url.
  rewrite (bind_lift_ok _ _ _ _ Hp).
  rewrite dict_get_not_in by (rewrite url_base_channels; exact Hn).
  reflexivity.
Qed.

Lemma get_channel_url_unknown_channel_witness :
  get_channel_url Demo.env "channel://nightly" None (Demo.start Demo.dirs "/home/user")
  = (Raise (Exception "Unknown channel: nightly"), Demo.start Demo.dirs "/home/user").
Proof.
  apply (get_channel_url_unknown_channel Demo.env "channel://nightly" None _
           (MkParse "channel" "nightly" "")).
  - reflexivity.
  - rewrite !not_elem_of_cons. repeat split; try discriminate. apply not_elem_of_nil.
Defined.

(** C9: when the scan of the directory listing collects no match, channel
    resolution fails with NoImageFound (the KeyError of popping from an
    empty set) and returns no URL. *)
Theorem get_channel_url_no_image E url d w p base text :
  urlparse E url = Ok p →
  dict_get url_base (url_netloc p) = Some base →
  http_get E (net_log w) (base +:+ images_subdir d) = Some text →
  feed E d text = Ok ∅ →
  get_channel_url E url d w
  = (Raise NoImageFound, log_request (GET (base +:+ images_subdir d)) w).
Proof.
  intros Hp Hb Hg Hf. unfold get_channel_url.
  rewrite (bind_lift_ok _ _ _ _ Hp). rewrite Hb.
  erewrite bind_ok by (unfold requests_get; rewrite Hg; reflexivity).
  rewrite (bind_lift_ok _ _ _ _ Hf).
  unfold bind, lift. now rewrite get_image_empty.
Qed.

Lemma get_channel_url_no_image_witness :
  get_channel_url Demo.env "channel://release" None (Demo.start Demo.dirs "/home/user")
  = (Raise (KeyError "pop from an empty set"),
     log_request
       (GET "http://download.suse.de/ibs/SUSE:/SLE-12-SP3:/Update:/Products:/CASP20/images")
       (Demo.start Demo.dirs "/home/user")).
Proof.
  apply (get_channel_url_no_image Demo.env "channel://release" None _
           (MkParse "channel" "release" "")
           "http://download.suse.de/ibs/SUSE:/SLE-12-SP3:/Update:/Products:/CASP20/"
           "Index of /images");
    reflexivity.
Defined.

(** C5: for a channel of the table, when the listing is fetched and the
    scan collects at least one name, channel resolution returns
    [<base-url>/<matched-filename>]: the channel's base directory URL from
    the table, followed by [images_container_derived] when a docker image
    name was given and by [images] otherwise, a slash, and a name matched by
    the pattern in a text segment of the page.  The result starts with the
    channel's base directory. *)
Theorem get_channel_url_scoped E url d w p base text (images : gset string) :
  urlparse E url = Ok p →
  dict_get url_base (url_netloc p) = Some base →
  http_get E (net_log w)
    (base +:+ (if truthy d then "images_container_derived" else "images")) = Some text →
  feed E d text = Ok images →
  images ≠ ∅ →
  ∃ image data,
    data ∈ (html_text_segments E text).1
    ∧ re_search E (ImageFinder_regexp d) data = Ok (Some image)
    ∧ get_channel_url E url d w
      = (Ok (base +:+ (if truthy d then "images_container_derived" else "images")
                  +:+ "/" +:+ image),
         log_request
           (GET (base +:+ (if truthy d then "images_container_derived" else "images"))) w)
    ∧ String.prefix base
        (base +:+ (if truthy d then "images_container_derived" else "images")
              +:+ "/" +:+ image) = true.
Proof.
  intros Hp Hb Hg Hf Hne.
  destruct (get_image_elem E images Hne) as (image & Hi & Hin).
  destruct (feed_matches E d text images Hf image Hin) as (data & Hd & Hr).
  exists image, data. repeat split; [exact Hd|exact Hr| |apply prefix_app].
  unfold get_channel_url.
  rewrite (bind_lift_ok _ _ _ _ Hp). rewrite Hb.
  fold (images_subdir d) in *.
  erewrite bind_ok by (unfold requests_get; rewrite Hg; reflexivity).
  rewrite (bind_lift_ok _ _ _ _ Hf). rewrite (bind_lift_ok _ _ _ _ Hi).
  unfold ret. now rewrite append_assoc.
Qed.

Lemma get_channel_url_scoped_witness :
  ∃ image data,
    data ∈ (html_text_segments Demo.env Demo.listing).1
    ∧ re_search Demo.env (ImageFinder_regexp None) data = Ok (Some image)
    ∧ get_channel_url Demo.env "channel://devel" None (Demo.start Demo.dirs "/home/user")
      = (Ok ("http://download.suse.de/ibs/Devel:/CASP:/Head:/ControllerNode/"
               +:+ "images" +:+ "/" +:+ image),
         log_request
           (GET ("http://download.suse.de/ibs/Devel:/CASP:/Head:/ControllerNode/"
                   +:+ "images"))
           (Demo.start Demo.dirs "/home/user"))
    ∧ String.prefix "http://download.suse.de/ibs/Devel:/CASP:/Head:/ControllerNode/"
        ("http://download.suse.de/ibs/Devel:/CASP:/Head:/ControllerNode/"
           +:+ "images" +:+ "/" +:+ image) = true.
Proof.
  apply (get_channel_url_scoped Demo.env "channel://devel" None
           (Demo.start Demo.dirs "/home/user") (MkParse "channel" "devel" "")
           "http://download.suse.de/ibs/Devel:/CASP:/Head:/ControllerNode/"
           Demo.listing
           {[ "SUSE-CaaS-Platform-2.0-KVM-and-Xen.x86_64-2.0.0-Build1.1.qcow2" ]}).
  - reflexivity.
  - reflexivity.
  - reflexivity.
  - vm_compute. reflexivity.
  - intros H. apply (f_equal elements) in H. vm_compute in H. discriminate H.
Defined.

(** An empty docker image name counts as none, as Python's [if] takes it. *)
Lemma images_subdir_empty_name : images_subdir (Some "") = "images".
Proof. reflexivity. Qed.

(** ** The redirect walker *)

Lemma requests_head_ok E url w r :
  http_head E (net_log w) url = Some r →
  requests_head E url w = (Ok r, log_request (HEAD url) w).
Proof. intros H. unfold requests_head. now rewrite H. Qed.

(** C4: over a chain of [n] redirects, each with status 301 or 302 and a
    Location header, and with a recursion budget above [n], the walker
    returns the final URL when the last response has status 200, and fails
    with UnresolvableLocation when the last response has any status other
    than 200, 301 and 302.  Either way it has issued exactly the HEAD
    requests of the chain. *)
Theorem get_versioned_image_link_chain E log url n st log' final :
  redirect_chain E log url n st log' final →
  ∀ fuel w,
    n < fuel → net_log w = log →
    get_versioned_image_link E fuel url w
    = (if (st =? 200)%Z then Ok final else Raise UnresolvableLocation,
       World (fs w) (cwd w) (stdout w) log').
Proof.
  induction 1 as [log url r Hh H1 H2 | log url r next n st log' final Hh Hs Hl Hc IH];
    intros fuel w Hf Hw; (destruct fuel as [|fuel]; [lia|]); subst log; simpl.
  - rewrite (bind_ok _ _ _ _ _ (requests_head_ok E url w r Hh)).
    destruct (Z.eqb_spec (status_code r) 302); [contradiction|].
    destruct (Z.eqb_spec (status_code r) 301); [contradiction|].
    simpl. destruct (status_code r =? 200)%Z; reflexivity.
  - rewrite (bind_ok _ _ _ _ _ (requests_head_ok E url w r Hh)).
    assert (((status_code r =? 302) || (status_code r =? 301))%Z = true) as ->.
    { destruct Hs as [-> | ->]; reflexivity. }
    rewrite Hl.
    rewrite (IH fuel (log_request (HEAD url) w)); [reflexivity|lia|reflexivity].
Qed.

Lemma get_versioned_image_link_chain_witness :
  get_versioned_image_link Demo.env 1000 "http://mirror/latest.qcow2"
    (Demo.start Demo.dirs "/home/user")
  = (Ok "http://mirror/img-1.2.qcow2",
     World Demo.dirs "/home/user" []
       [HEAD "http://mirror/latest.qcow2"; HEAD "http://mirror/r2";
        HEAD "http://mirror/img-1.2.qcow2"])
  ∧ get_versioned_image_link Demo.env 1000 "http://mirror/old"
      (Demo.start Demo.dirs "/home/user")
    = (Raise (Exception "Cannot find image location"),
       World Demo.dirs "/home/user" []
         [HEAD "http://mirror/old"; HEAD "http://mirror/gone"]).
Proof.
  split.
  - apply (get_versioned_image_link_chain Demo.env [] "http://mirror/latest.qcow2"
             2 200 _ "http://mirror/img-1.2.qcow2"); [|lia|reflexivity].
    eapply chain_hop; [reflexivity|now right|reflexivity|].
    eapply chain_hop; [reflexivity|now left|reflexivity|].
    refine (chain_end Demo.env
              [HEAD "http://mirror/latest.qcow2"; HEAD "http://mirror/r2"]
              "http://mirror/img-1.2.qcow2" (Response 200 None) eq_refl _ _);
      discriminate.
  - apply (get_versioned_image_link_chain Demo.env [] "http://mirror/old"
             1 404 _ "http://mirror/gone"); [|lia|reflexivity].
    eapply chain_hop; [reflexivity|now right|reflexivity|].
    refine (chain_end Demo.env [HEAD "http://mirror/old"]
              "http://mirror/gone" (Response 404 None) eq_refl _ _);
      discriminate.
Defined.

(** ** The file system *)

Lemma removelast_ne {A} (k : list A) : k ≠ [] → removelast k ≠ k.
Proof.
  intros Hk Heq. apply (f_equal (@length A)) in Heq.
  destruct k as [|x k]; [congruence|].
  rewrite (app_removelast_last x Hk) in Heq at 2.
  rewrite length_app in Heq. simpl in Heq. lia.
Qed.

Lemma node_at_delete_same fs k : k ≠ [] → Fs.node_at (delete k fs) k = None.
Proof. destruct k; [congruence|]. intros _. simpl. apply lookup_delete_eq. Qed.

Lemma node_at_delete_ne fs k k' : k ≠ k' → Fs.node_at (delete k fs) k' = Fs.node_at fs k'.
Proof. intros H. destruct k'; [reflexivity|]. simpl. now apply lookup_delete_ne. Qed.

Lemma node_at_insert_same fs k n : k ≠ [] → Fs.node_at (<[k := n]> fs) k = Some n.
Proof. destruct k; [congruence|]. intros _. simpl. apply lookup_insert_eq. Qed.

Lemma node_at_insert_ne fs k k' n :
  k ≠ k' → Fs.node_at (<[k := n]> fs) k' = Fs.node_at fs k'.
Proof. intros H. destruct k'; [reflexivity|]. simpl. now apply lookup_insert_ne. Qed.

Lemma node_at_delete_parent fs k :
  Fs.node_at (delete k fs) (Fs.parent k) = Fs.node_at fs (Fs.parent k).
Proof.
  destruct (decide (k = [])) as [->|Hk]; [reflexivity|].
  apply node_at_delete_ne. intros H. symmetry in H. now apply removelast_ne in H.
Qed.

Lemma node_at_insert_parent fs k n :
  Fs.node_at (<[k := n]> fs) (Fs.parent k) = Fs.node_at fs (Fs.parent k).
Proof.
  destruct (decide (k = [])) as [->|Hk]; [reflexivity|].
  apply node_at_insert_ne. intros H. symmetry in H. now apply removelast_ne in H.
Qed.

Lemma node_at_not_root fs k n : Fs.node_at fs k = n → n ≠ Some Dir → k ≠ [].
Proof. intros H Hn ->. simpl in H. congruence. Qed.

(** ** The primitives *)


Lemma key_of_upd f o l w p : key_of (World f (cwd w) o l) p = key_of w p.
Proof. reflexivity. Qed.

Lemma lstat_nonempty w p : p ≠ "" → lstat w p = Fs.node_at (fs w) (key_of w p).
Proof. intros H. unfold lstat. now destruct (decide (p = "")). Qed.

Lemma lstat_some w p n : lstat w p = Some n → p ≠ "".
Proof. unfold lstat. destruct (decide (p = "")); [discriminate|auto]. Qed.

Lemma os_unlink_link w p t :
  lstat w p = Some (Link t) →
  os_unlink p w
  = (Ok tt, World (delete (key_of w p) (fs w)) (cwd w) (stdout w) (net_log w)).
Proof. intros H. unfold os_unlink. now rewrite H. Qed.

Lemma os_symlink_ok target p w :
  p ≠ "" → target ≠ "" →
  Fs.node_at (fs w) (key_of w p) = None →
  Fs.node_at (fs w) (Fs.parent (key_of w p)) = Some Dir →
  os_symlink target p w
  = (Ok tt, World (<[key_of w p := Link target]> (fs w)) (cwd w) (stdout w) (net_log w)).
Proof.
  intros Hp Ht Hn Hd. unfold os_symlink.
  destruct (decide (p = "" ∨ target = "")) as [[|]|_]; [contradiction..|].
  now rewrite Hn, Hd.
Qed.

Lemma os_symlink_exists target p w n :
  lstat w p = Some n →
  os_symlink target p w
  = (Raise (OSError (if decide (target = "") then ENOENT else EEXIST)), w).
Proof.
  intros H. pose proof (lstat_some _ _ _ H) as Hp.
  rewrite lstat_nonempty in H by exact Hp. unfold os_symlink.
  destruct (decide (target = "")) as [->|Ht].
  - destruct (decide (p = "" ∨ "" = "")) as [_|Hno]; [reflexivity|].
    exfalso. apply Hno. now right.
  - destruct (decide (p = "" ∨ target = "")) as [[|]|_]; [contradiction..|].
    now rewrite H.
Qed.

(** A failed [os.symlink] changes nothing. *)
Lemma os_symlink_raise target p w e w' :
  os_symlink target p w = (Raise e, w') → w' = w.
Proof.
  unfold os_symlink. intros H.
  repeat match type of H with
         | context [decide ?P] => destruct (decide P)
         | context [match ?x with _ => _ end] => destruct x
         end; congruence.
Qed.

(** ** The shared end of the aliasing steps *)

(** Where nothing or a link is at the name, and the directory and the
    target are in order, the old link goes and the new one is made. *)
Lemma relink_replaces target p w :
  p ≠ "" → target ≠ "" →
  (Fs.node_at (fs w) (key_of w p) = None
   ∨ ∃ t, Fs.node_at (fs w) (key_of w p) = Some (Link t)) →
  Fs.node_at (fs w) (Fs.parent (key_of w p)) = Some Dir →
  relink target p w
  = (Ok tt, World (<[key_of w p := Link target]> (delete (key_of w p) (fs w)))
                  (cwd w) (stdout w) (net_log w)).
Proof.
  intros Hp Ht Hn Hd. unfold relink, bind at 1, os_path_islink.
  rewrite lstat_nonempty by exact Hp.
  destruct Hn as [Hn|[t Hn]]; rewrite Hn.
  - unfold bind, ret. rewrite os_symlink_ok by assumption.
    assert (key_of w p ≠ []) as Hk by (eapply node_at_not_root; [exact Hn|discriminate]).
    destruct (key_of w p) eqn:Hkey; [congruence|]. simpl in Hn.
    now rewrite (delete_id _ _ Hn).
  - assert (key_of w p ≠ []) as Hk by (eapply node_at_not_root; [exact Hn|discriminate]).
    erewrite bind_ok
      by (apply (os_unlink_link _ _ t); rewrite lstat_nonempty by exact Hp; exact Hn).
    rewrite os_symlink_ok; simpl; try assumption.
    + reflexivity.
    + now apply node_at_delete_same.
    + now rewrite node_at_delete_parent.
Qed.

(** Where something that is no link has the name, it stays, and making the
    link fails. *)
Lemma relink_blocked target p w n :
  lstat w p = Some n → is_link n = false →
  relink target p w
  = (Raise (OSError (if decide (target = "") then ENOENT else EEXIST)), w).
Proof.
  intros Hn Hl. unfold relink, bind at 1, os_path_islink. rewrite Hn.
  destruct n as [c|t|]; [|discriminate|]; unfold bind, ret;
    now rewrite (os_symlink_exists _ _ _ _ Hn).
Qed.

Lemma os_symlink_fail target p w :
  p = "" ∨ target = "" ∨ Fs.node_at (fs w) (Fs.parent (key_of w p)) ≠ Some Dir →
  ∃ e, os_symlink target p w = (Raise e, w).
Proof.
  intros H. unfold os_symlink.
  destruct (decide (p = "" ∨ target = "")) as [_|Hno]; [eauto|].
  destruct (Fs.node_at (fs w) (key_of w p)); [eauto|].
  destruct (Fs.node_at (fs w) (Fs.parent (key_of w p))) as [[| |]|]; eauto.
  exfalso. destruct H as [H|[H|H]]; [apply Hno; now left|apply Hno; now right|congruence].
Qed.

(** With nothing at the name, a failing [relink] changes nothing. *)
Lemma relink_absent_fail target p w :
  lstat w p = None →
  p = "" ∨ target = "" ∨ Fs.node_at (fs w) (Fs.parent (key_of w p)) ≠ Some Dir →
  ∃ e, relink target p w = (Raise e, w).
Proof.
  intros Hn H. unfold relink, bind at 1, os_path_islink. rewrite Hn.
  unfold bind, ret. apply os_symlink_fail, H.
Qed.

(** With a link at the name, a failing [relink] has removed the link. *)
Lemma relink_link_fail target p w t :
  lstat w p = Some (Link t) →
  target = "" ∨ Fs.node_at (fs w) (Fs.parent (key_of w p)) ≠ Some Dir →
  ∃ e, relink target p w
       = (Raise e, World (delete (key_of w p) (fs w)) (cwd w) (stdout w) (net_log w)).
Proof.
  intros Hn H. unfold relink, bind at 1, os_path_islink. rewrite Hn.
  rewrite (bind_ok _ _ _ _ _ (os_unlink_link _ _ _ Hn)).
  apply os_symlink_fail. right. simpl.
  destruct H as [H|H]; [now left|right].
  now rewrite node_at_delete_parent.
Qed.

(** Running [relink] again changes nothing more, and succeeds again where
    it succeeded. *)
Lemma relink_idempotent target p w :
  (relink target p (relink target p w).2).2 = (relink target p w).2
  ∧ ((relink target p w).1 = Ok tt → (relink target p (relink target p w).2).1 = Ok tt).
Proof.
  destruct (lstat w p) as [n|] eqn:Hn.
  - pose proof (lstat_some _ _ _ Hn) as Hp.
    destruct (is_link n) eqn:Hl.
    + destruct n as [|t|]; try discriminate.
      destruct (decide (target = "")) as [Ht|Ht];
        [|destruct (decide (Fs.node_at (fs w) (Fs.parent (key_of w p)) = Some Dir))
            as [Hd|Hd]].
      * destruct (relink_link_fail target p w t Hn (or_introl Ht)) as [e He].
        rewrite He. simpl.
        edestruct (relink_absent_fail target p) as [e' He'];
          [|right; left; exact Ht|rewrite He'; split; [reflexivity|discriminate]].
        rewrite lstat_nonempty by exact Hp. simpl.
        rewrite lstat_nonempty in Hn by exact Hp.
        apply node_at_delete_same. eapply node_at_not_root; [exact Hn|discriminate].
      * rewrite lstat_nonempty in Hn by exact Hp.
        assert (key_of w p ≠ []) as Hk
          by (eapply node_at_not_root; [exact Hn|discriminate]).
        rewrite (relink_replaces target p w Hp Ht (or_intror (ex_intro _ t Hn)) Hd).
        simpl. rewrite relink_replaces; simpl; try assumption.
        -- split; [|reflexivity]. f_equal.
           rewrite ?key_of_upd.
           now rewrite !insert_delete_eq, insert_insert_eq.
        -- right. exists target.
           rewrite ?key_of_upd.
           now apply node_at_insert_same.
        -- rewrite ?key_of_upd.
           now rewrite node_at_insert_parent, node_at_delete_parent.
      * destruct (relink_link_fail target p w t Hn (or_intror Hd)) as [e He].
        rewrite He. simpl.
        edestruct (relink_absent_fail target p) as [e' He'];
          [| |rewrite He'; split; [reflexivity|discriminate]].
        -- rewrite lstat_nonempty by exact Hp. simpl.
           rewrite lstat_nonempty in Hn by exact Hp.
           apply node_at_delete_same. eapply node_at_not_root; [exact Hn|discriminate].
        -- right; right. simpl. rewrite ?key_of_upd.
           now rewrite node_at_delete_parent.
    + rewrite (relink_blocked target p w n Hn Hl). simpl.
      rewrite (relink_blocked target p w n Hn Hl). split; [reflexivity|discriminate].
  - destruct (decide (p = "" ∨ target = ""
                      ∨ Fs.node_at (fs w) (Fs.parent (key_of w p)) ≠ Some Dir))
      as [Hf|Hok].
    + destruct (relink_absent_fail target p w Hn Hf) as [e He].
      rewrite He. simpl. rewrite He. split; [reflexivity|discriminate].
    + assert (p ≠ "") as Hp by (intros ->; apply Hok; now left).
      assert (target ≠ "") as Ht by (intros ->; apply Hok; right; now left).
      assert (Fs.node_at (fs w) (Fs.parent (key_of w p)) = Some Dir) as Hd.
      { destruct (decide (Fs.node_at (fs w) (Fs.parent (key_of w p)) = Some Dir));
          [assumption|]. exfalso. apply Hok. right; now right. }
      rewrite lstat_nonempty in Hn by exact Hp.
      assert (key_of w p ≠ []) as Hk
        by (eapply node_at_not_root; [exact Hn|discriminate]).
      rewrite (relink_replaces target p w Hp Ht (or_introl Hn) Hd).
      simpl. rewrite relink_replaces; simpl; try assumption.
      * split; [|reflexivity]. f_equal.
        rewrite ?key_of_upd.
        now rewrite !insert_delete_eq, insert_insert_eq.
      * right. exists target.
        rewrite ?key_of_upd.
        now apply node_at_insert_same.
      * rewrite ?key_of_upd.
        now rewrite node_at_insert_parent, node_at_delete_parent.
Qed.

Lemma os_symlink_frame target p w :
  cwd (os_symlink target p w).2 = cwd w
  ∧ stdout (os_symlink target p w).2 = stdout w
  ∧ net_log (os_symlink target p w).2 = net_log w.
Proof.
  unfold os_symlink.
  destruct (decide (p = "" ∨ target = "")); [now simpl|].
  destruct (Fs.node_at (fs w) (key_of w p)); [now simpl|].
  destruct (Fs.node_at (fs w) (Fs.parent (key_of w p))) as [[| |]|]; now simpl.
Qed.

Lemma relink_as_symlink target p w :
  ∃ f, relink target p w
       = os_symlink target p (World f (cwd w) (stdout w) (net_log w)).
Proof.
  unfold relink, bind at 1, os_path_islink.
  destruct (lstat w p) as [[c|t|]|] eqn:Hn; cbv beta iota.
  - exists (fs w). now destruct w.
  - exists (delete (key_of w p) (fs w)).
    now rewrite (bind_ok _ _ _ _ _ (os_unlink_link _ _ _ Hn)).
  - exists (fs w). now destruct w.
  - exists (fs w). now destruct w.
Qed.

(** [relink] touches the file system only. *)
Lemma relink_frame target p w :
  cwd (relink target p w).2 = cwd w
  ∧ stdout (relink target p w).2 = stdout w
  ∧ net_log (relink target p w).2 = net_log w.
Proof.
  destruct (relink_as_symlink target p w) as [f ->].
  apply (os_symlink_frame target p (World f (cwd w) (stdout w) (net_log w))).
Qed.



(** ** Aliasing the downloaded file *)



(** ** Aliasing a local file *)

Lemma use_local_file_eq E url w p :
  urlparse E url = Ok p →
  use_local_file E url w
  = if negb (String.eqb (cwd w +:+ "/" +:+ PyStr.final (PyStr.split "/" (url_path p)))
                        (url_path p))
    then relink (url_path p) (PyStr.final (PyStr.split "/" (url_path p)))
           (World (fs w) (cwd w)
              (stdout w ++ [cwd w +:+ "/" +:+ PyStr.final (PyStr.split "/" (url_path p))])
              (net_log w))
    else (Ok tt,
          World (fs w) (cwd w)
            (stdout w ++ [cwd w +:+ "/" +:+ PyStr.final (PyStr.split "/" (url_path p))])
            (net_log w)).
Proof.
  intros Hp. unfold use_local_file, get_filename, relink.
  unfold bind, lift, ret, os_getcwd, print. rewrite Hp. cbv beta iota.
  destruct (String.eqb _ (url_path p)); reflexivity.
Qed.

(** C7: the local-file aliaser takes the last segment of the URL's path as
    the expected name.  If [<current-directory>/<expected-name>] is the
    URL's path, it creates no link: the file system is unchanged.  Otherwise
    (the link being creatable: the expected name is not empty, the name is
    free or held by a symbolic link, and the current directory exists) it
    removes the link of that name in the current directory if there is one
    and creates a symbolic link from that name to the URL's path.  In no
    case is a network request made, so no checksum is fetched or compared;
    all it prints is the path it compares. *)
Theorem use_local_file_aliases E url w p :
  urlparse E url = Ok p →
  (cwd w +:+ "/" +:+ PyStr.final (PyStr.split "/" (url_path p)) = url_path p →
   use_local_file E url w
   = (Ok tt, World (fs w) (cwd w) (stdout w ++ [url_path p]) (net_log w)))
  ∧ (cwd w +:+ "/" +:+ PyStr.final (PyStr.split "/" (url_path p)) ≠ url_path p →
     PyStr.final (PyStr.split "/" (url_path p)) ≠ "" →
     (Fs.node_at (fs w) (key_of w (PyStr.final (PyStr.split "/" (url_path p)))) = None
      ∨ ∃ t, Fs.node_at (fs w) (key_of w (PyStr.final (PyStr.split "/" (url_path p))))
             = Some (Link t)) →
     Fs.node_at (fs w)
       (Fs.parent (key_of w (PyStr.final (PyStr.split "/" (url_path p))))) = Some Dir →
     use_local_file E url w
     = (Ok tt,
        World (<[key_of w (PyStr.final (PyStr.split "/" (url_path p)))
                 := Link (url_path p)]>
                 (delete (key_of w (PyStr.final (PyStr.split "/" (url_path p)))) (fs w)))
              (cwd w)
              (stdout w ++ [cwd w +:+ "/" +:+ PyStr.final (PyStr.split "/" (url_path p))])
              (net_log w)))
  ∧ net_log (use_local_file E url w).2 = net_log w.
Proof.
  intros Hp. rewrite (use_local_file_eq E url w p Hp). repeat split.
  - intros Heq. rewrite Heq at 1. rewrite String.eqb_refl. simpl. now rewrite Heq.
  - intros Hne He Hn Hd. apply String.eqb_neq in Hne. rewrite Hne. simpl.
    rewrite relink_replaces; simpl; rewrite ?key_of_upd; try assumption; [reflexivity|].
    intros Heq. apply He. now rewrite Heq.
  - destruct (negb _); [|reflexivity].
    now rewrite (proj2 (proj2 (relink_frame _ _ _))).
Qed.

Lemma use_local_file_aliases_witness :
  use_local_file Demo.env "file:///tmp/x/img.qcow2" (Demo.start Demo.dirs "/tmp/x")
  = (Ok tt, World Demo.dirs "/tmp/x" ["/tmp/x/img.qcow2"] [])
  ∧ use_local_file Demo.env "file:///tmp/x/img.qcow2"
      (Demo.start (<[ ["home"; "user"; "img.qcow2"] := Link "/old/img.qcow2" ]> Demo.dirs)
                  "/home/user")
    = (Ok tt,
       World (<[ ["home"; "user"; "img.qcow2"] := Link "/tmp/x/img.qcow2" ]>
                (delete ["home"; "user"; "img.qcow2"]
                   (<[ ["home"; "user"; "img.qcow2"] := Link "/old/img.qcow2" ]>
                      Demo.dirs)))
             "/home/user" ["/home/user/img.qcow2"] []).
Proof.
  split.
  - apply (proj1 (use_local_file_aliases Demo.env "file:///tmp/x/img.qcow2"
                    (Demo.start Demo.dirs "/tmp/x")
                    (MkParse "file" "" "/tmp/x/img.qcow2") eq_refl)).
    reflexivity.
  - eapply eq_trans.
    + apply (proj1 (proj2 (use_local_file_aliases Demo.env "file:///tmp/x/img.qcow2"
                      (Demo.start (<[ ["home"; "user"; "img.qcow2"]
                                      := Link "/old/img.qcow2" ]> Demo.dirs) "/home/user")
                      (MkParse "file" "" "/tmp/x/img.qcow2") eq_refl))).
      * discriminate.
      * discriminate.
      * right. exists "/old/img.qcow2". vm_compute. reflexivity.
      * vm_compute. reflexivity.
    + vm_compute. reflexivity.
Defined.

(** ** An entry that is no link is left alone *)



(** ** Fetch and verify *)

(** Writing a regular file neither makes nor changes a symbolic link. *)
Lemma write_links fs k body : Fs.links (Fs.write fs k body) = Fs.links fs.
Proof.
  unfold Fs.write, Fs.links.
  destruct (Fs.resolve Fs.max_symlinks fs k) as [k'|]; [|reflexivity].
  destruct (Fs.node_at fs k') as [[c|t|]|] eqn:Hn; try reflexivity.
  - destruct k' as [|x k']; [discriminate|]. simpl in Hn.
    apply map_filter_insert_not'; simpl; [discriminate|].
    intros y Hy. rewrite Hn in Hy. inversion Hy; subst. simpl. discriminate.
  - destruct (Fs.node_at fs (Fs.parent k')) as [[| |]|]; try reflexivity.
    destruct k' as [|x k']; [discriminate|]. simpl in Hn.
    apply map_filter_insert_not'; simpl; [discriminate|].
    intros y Hy. rewrite Hn in Hy. discriminate.
Qed.

(** The walker only talks to the network. *)
Lemma get_versioned_image_link_frame E fuel : ∀ url w,
  fs (get_versioned_image_link E fuel url w).2 = fs w
  ∧ cwd (get_versioned_image_link E fuel url w).2 = cwd w
  ∧ stdout (get_versioned_image_link E fuel url w).2 = stdout w.
Proof.
  induction fuel as [|fuel IH]; intros url w; simpl; [auto|].
  unfold bind, requests_head.
  destruct (http_head E (net_log w) url) as [r|]; [|auto].
  destruct ((status_code r =? 302)%Z || (status_code r =? 301)%Z).
  - destruct (location r) as [next|]; [|auto].
    destruct (IH next (log_request (HEAD url) w)) as (H1 & H2 & H3). auto.
  - destruct (status_code r =? 200)%Z; auto.
Qed.

Lemma os_system_wget_frame E url path file w :
  Fs.links (fs (os_system_wget E url path file w).2) = Fs.links (fs w)
  ∧ cwd (os_system_wget E url path file w).2 = cwd w
  ∧ stdout (os_system_wget E url path file w).2 = stdout w
  ∧ net_log (os_system_wget E url path file w).2 = net_log w ++ [WGET url]
  ∧ (os_system_wget E url path file w).1 = Ok tt.
Proof.
  unfold os_system_wget. destruct (wget_body E (net_log w) url); simpl; auto.
  rewrite write_links. auto.
Qed.

(** What [fetch_and_verify] comes to once the published digest is fetched:
    [w2] is the world after wget has run. *)
Lemma fetch_and_verify_eq E versioned_url path actual_name w remote :
  http_get E (net_log w) (versioned_url +:+ ".sha256") = Some remote →
  fetch_and_verify E versioned_url path actual_name w
  = let w2 := (os_system_wget E versioned_url path actual_name
                 (log_request (GET (versioned_url +:+ ".sha256")) w)).2 in
    let local_sha :=
      sha256sum_stdout E (fs w2) (cwd w2) (path +:+ "/" +:+ actual_name) in
    if PyStr.contains (PyStr.first (PyStr.split " " local_sha)) remote
    then (Ok tt, w2)
    else (Raise CorruptedDownload,
          World (fs w2) (cwd w2)
            ((stdout w2 ++ ["Local SHA: " +:+ local_sha])
               ++ ["Remote SHA: " +:+ remote])
            (net_log w2)).
Proof.
  intros Hg. unfold fetch_and_verify.
  erewrite bind_ok by (unfold requests_get; rewrite Hg; reflexivity).
  unfold bind at 1.
  destruct (os_system_wget_frame E versioned_url path actual_name
              (log_request (GET (versioned_url +:+ ".sha256")) w))
    as (_ & _ & _ & _ & Hok).
  destruct (os_system_wget E versioned_url path actual_name
              (log_request (GET (versioned_url +:+ ".sha256")) w)) as [r w2].
  simpl in Hok. subst r. cbv zeta. simpl snd.
  unfold bind at 1, os_popen_sha256sum. cbv beta iota.
  destruct (PyStr.contains _ remote); reflexivity.
Qed.

Lemma download_file_eq E path type url expected_name force w v w1 p :
  get_versioned_image_link E (recursion_limit E) url w = (Ok v, w1) →
  urlparse E v = Ok p →
  download_file E path type url expected_name force w
  = bind (if negb (isfile w1 (PyStr.final (PyStr.split "/" (url_path p)))) || force
          then fetch_and_verify E v path (PyStr.final (PyStr.split "/" (url_path p)))
          else ret tt)
         (λ _, alias_link path type expected_name
                 (PyStr.final (PyStr.split "/" (url_path p)))) w1.
Proof.
  intros Hv Hp. unfold download_file.
  rewrite (bind_ok _ _ _ _ _ Hv).
  unfold get_filename, bind at 1, bind at 1, lift. rewrite Hp. unfold ret at 1.
  cbv beta iota.
  reflexivity.
Qed.

(** The check on a digest line as [sha256sum] prints it.  In
    [download_file], when the download is made (no file of that name is
    found, or it is forced), the published digest has been fetched, and
    [sha256sum] has printed a line whose first whitespace-delimited token
    [tok] is followed by a space: if [tok] occurs in the fetched digest text,
    verification passes and the script goes on to the alias step; otherwise
    the script fails with CorruptedDownload, having printed the local and the
    remote digest, and the symbolic links of the file system are those it
    started with. *)
Theorem download_file_verifies E path type url expected_name force w
    v w1 p actual_name remote w2 local_sha tok rest :
  get_versioned_image_link E (recursion_limit E) url w = (Ok v, w1) →
  urlparse E v = Ok p →
  actual_name = PyStr.final (PyStr.split "/" (url_path p)) →
  isfile w1 actual_name = false ∨ force = true →
  http_get E (net_log w1) (v +:+ ".sha256") = Some remote →
  w2 = (os_system_wget E v path actual_name
          (log_request (GET (v +:+ ".sha256")) w1)).2 →
  local_sha = sha256sum_stdout E (fs w2) (cwd w2) (path +:+ "/" +:+ actual_name) →
  local_sha = tok +:+ " " +:+ rest →
  tok ≠ "" →
  PyStr.no_whitespace tok = true →
  PyStr.first_whitespace_token local_sha = Some tok
  ∧ (PyStr.contains tok remote = true →
     download_file E path type url expected_name force w
     = alias_link path type expected_name actual_name w2)
  ∧ (PyStr.contains tok remote = false →
     download_file E path type url expected_name force w
     = (Raise CorruptedDownload,
        World (fs w2) (cwd w2)
          (stdout w ++ ["Local SHA: " +:+ local_sha; "Remote SHA: " +:+ remote])
          (net_log w2))
     ∧ Fs.links (fs w2) = Fs.links (fs w)).
Proof.
  intros Hv Hp Ha Hdl Hg Hw2 Hl Hshape Hne Hws.
  assert (PyStr.first (PyStr.split " " local_sha) = tok) as Htok.
  { rewrite Hshape. now apply split_space_first_word. }
  pose proof (get_versioned_image_link_frame E (recursion_limit E) url w) as Hfr.
  rewrite Hv in Hfr. simpl in Hfr. destruct Hfr as (Hfs1 & Hcwd1 & Hout1).
  destruct (os_system_wget_frame E v path actual_name
              (log_request (GET (v +:+ ".sha256")) w1))
    as (Hlinks & _ & Hout2 & _ & _).
  rewrite <- Hw2 in Hlinks, Hout2. simpl in Hlinks, Hout2.
  assert (download_file E path type url expected_name force w
          = bind (fetch_and_verify E v path actual_name)
                 (λ _, alias_link path type expected_name actual_name) w1) as Hd.
  { rewrite (download_file_eq E path type url expected_name force w v w1 p Hv Hp).
    rewrite <- Ha. destruct Hdl as [-> | ->]; [reflexivity|].
    now rewrite orb_true_r. }
  pose proof (fetch_and_verify_eq E v path actual_name w1 remote Hg) as Hf.
  cbv zeta in Hf. rewrite <- Hw2, <- Hl, Htok in Hf.
  split; [|split].
  - rewrite Hshape. now apply first_whitespace_token_word.
  - intros Hc. rewrite Hc in Hf. rewrite Hd. now rewrite (bind_ok _ _ _ _ _ Hf).
  - intros Hc. rewrite Hc in Hf. split.
    + rewrite Hd. rewrite (bind_raise _ _ _ _ _ Hf).
      rewrite Hout2, Hout1. now rewrite <- app_assoc.
    + now rewrite Hlinks, Hfs1.
Qed.

Lemma download_file_verifies_witness :
  download_file Demo.env "/srv/images" "kvm" "http://mirror/bad.qcow2" "bad.qcow2" false
    (Demo.start Demo.dirs "/home/user")
  = (Raise (Exception "Download corrupted - please retry."),
     World (<[ ["srv"; "images"; "bad.qcow2"] := File "DATA" ]> Demo.dirs) "/home/user"
       ["Local SHA: abc123  /srv/images/bad.qcow2" +:+ Demo.newline;
        "Remote SHA: ffff00  bad.qcow2" +:+ Demo.newline]
       [HEAD "http://mirror/bad.qcow2"; GET "http://mirror/bad.qcow2.sha256";
        WGET "http://mirror/bad.qcow2"])
  ∧ download_file Demo.env "/srv/images" "kvm" "http://mirror/latest.qcow2"
      "latest.qcow2" false (Demo.start Demo.dirs "/home/user")
    = alias_link "/srv/images" "kvm" "latest.qcow2" "img-1.2.qcow2"
        (World (<[ ["srv"; "images"; "img-1.2.qcow2"] := File "DATA" ]> Demo.dirs)
           "/home/user" []
           [HEAD "http://mirror/latest.qcow2"; HEAD "http://mirror/r2";
            HEAD "http://mirror/img-1.2.qcow2";
            GET "http://mirror/img-1.2.qcow2.sha256";
            WGET "http://mirror/img-1.2.qcow2"]).
Proof.
  split.
  - edestruct (download_file_verifies Demo.env "/srv/images" "kvm"
                 "http://mirror/bad.qcow2" "bad.qcow2" false
                 (Demo.start Demo.dirs "/home/user")
                 "http://mirror/bad.qcow2"
                 (World Demo.dirs "/home/user" [] [HEAD "http://mirror/bad.qcow2"])
                 (MkParse "http" "mirror" "/bad.qcow2") "bad.qcow2"
                 ("ffff00  bad.qcow2" +:+ Demo.newline)
                 (World (<[ ["srv"; "images"; "bad.qcow2"] := File "DATA" ]> Demo.dirs)
                    "/home/user" []
                    [HEAD "http://mirror/bad.qcow2"; GET "http://mirror/bad.qcow2.sha256";
                     WGET "http://mirror/bad.qcow2"])
                 ("abc123  /srv/images/bad.qcow2" +:+ Demo.newline)
                 "abc123" (" /srv/images/bad.qcow2" +:+ Demo.newline))
      as (_ & _ & Hfail);
      [vm_compute; reflexivity | reflexivity | reflexivity
      | left; vm_compute; reflexivity | reflexivity
      | vm_compute; reflexivity | vm_compute; reflexivity
      | vm_compute; reflexivity | discriminate | reflexivity | ].
    destruct (Hfail eq_refl) as [Hd _].
    eapply eq_trans; [exact Hd | vm_compute; reflexivity].
  - edestruct (download_file_verifies Demo.env "/srv/images" "kvm"
                 "http://mirror/latest.qcow2" "latest.qcow2" false
                 (Demo.start Demo.dirs "/home/user")
                 "http://mirror/img-1.2.qcow2"
                 (World Demo.dirs "/home/user" []
                    [HEAD "http://mirror/latest.qcow2"; HEAD "http://mirror/r2";
                     HEAD "http://mirror/img-1.2.qcow2"])
                 (MkParse "http" "mirror" "/img-1.2.qcow2") "img-1.2.qcow2"
                 ("abc123  img-1.2.qcow2" +:+ Demo.newline)
                 (World (<[ ["srv"; "images"; "img-1.2.qcow2"] := File "DATA" ]> Demo.dirs)
                    "/home/user" []
                    [HEAD "http://mirror/latest.qcow2"; HEAD "http://mirror/r2";
                     HEAD "http://mirror/img-1.2.qcow2";
                     GET "http://mirror/img-1.2.qcow2.sha256";
                     WGET "http://mirror/img-1.2.qcow2"])
                 ("abc123  /srv/images/img-1.2.qcow2" +:+ Demo.newline)
                 "abc123" (" /srv/images/img-1.2.qcow2" +:+ Demo.newline))
      as (_ & Hpass & _);
      [vm_compute; reflexivity | reflexivity | reflexivity
      | left; vm_compute; reflexivity | reflexivity
      | vm_compute; reflexivity | vm_compute; reflexivity
      | vm_compute; reflexivity | discriminate | reflexivity | ].
    eapply eq_trans; [exact (Hpass eq_refl) | vm_compute; reflexivity].
Defined.

(** C1: a download that cannot be stored passes the check.  With a
    directory in the place of the versioned file in the destination, wget
    stores nothing and [sha256sum] prints nothing; the output has no token at
    all, let alone one that occurs in the published digest text, yet
    [download_file] raises nothing, prints nothing, and makes the alias link.
    With a destination directory that does not exist and a URL answered at
    once, it ends without error having stored nothing, whatever the published
    digest says. *)
Theorem download_file_accepts_empty_digest :
  (PyStr.first_whitespace_token
     (sha256sum_stdout Demo.env
        (<[ ["srv"; "images"; "img-1.2.qcow2"] := Dir ]> Demo.dirs) "/home/user"
        "/srv/images/img-1.2.qcow2") = None
   ∧ http_get Demo.env
       [HEAD "http://mirror/latest.qcow2"; HEAD "http://mirror/r2";
        HEAD "http://mirror/img-1.2.qcow2"]
       "http://mirror/img-1.2.qcow2.sha256"
     = Some ("abc123  img-1.2.qcow2" +:+ Demo.newline)
   ∧ download_file Demo.env "/srv/images" "kvm" "http://mirror/latest.qcow2"
       "latest.qcow2" false
       (Demo.start (<[ ["srv"; "images"; "img-1.2.qcow2"] := Dir ]> Demo.dirs)
                   "/home/user")
     = (Ok tt,
        World (<[ ["srv"; "images"; "kvm-latest.qcow2"] := Link "img-1.2.qcow2" ]>
                 (<[ ["srv"; "images"; "img-1.2.qcow2"] := Dir ]> Demo.dirs))
              "/home/user" []
              [HEAD "http://mirror/latest.qcow2"; HEAD "http://mirror/r2";
               HEAD "http://mirror/img-1.2.qcow2";
               GET "http://mirror/img-1.2.qcow2.sha256";
               WGET "http://mirror/img-1.2.qcow2"]))
  ∧ (PyStr.first_whitespace_token
       (sha256sum_stdout Demo.env Demo.dirs "/home/user" "/no/such/dir/bad.qcow2")
     = None
     ∧ download_file Demo.env "/no/such/dir" "kvm" "http://mirror/bad.qcow2"
         "bad.qcow2" false (Demo.start Demo.dirs "/home/user")
       = (Ok tt,
          World Demo.dirs "/home/user" []
            [HEAD "http://mirror/bad.qcow2"; GET "http://mirror/bad.qcow2.sha256";
             WGET "http://mirror/bad.qcow2"])).
Proof. repeat split; vm_compute; reflexivity. Qed.

Lemma contains_empty s : PyStr.contains "" s = true.
Proof. destruct s; reflexivity. Qed.

(** X10: when [sha256sum] prints nothing (it could not read the file), the
    comparison is made with the empty string, which occurs in every text:
    the check passes whatever the published digest is. *)
Lemma fetch_and_verify_empty_output E versioned_url path actual_name w remote :
  http_get E (net_log w) (versioned_url +:+ ".sha256") = Some remote →
  sha256sum_stdout E
    (fs (os_system_wget E versioned_url path actual_name
           (log_request (GET (versioned_url +:+ ".sha256")) w)).2)
    (cwd w) (path +:+ "/" +:+ actual_name) = "" →
  (fetch_and_verify E versioned_url path actual_name w).1 = Ok tt.
Proof.
  intros Hg Hs. rewrite (fetch_and_verify_eq _ _ _ _ _ _ Hg). cbv zeta.
  destruct (os_system_wget_frame E versioned_url path actual_name
              (log_request (GET (versioned_url +:+ ".sha256")) w))
    as (_ & Hc & _).
  simpl in Hc. rewrite Hc, Hs.
  change (PyStr.first (PyStr.split " " "")) with "".
  now rewrite contains_empty.
Qed.

(** ** When the download is skipped *)

(** X9: when a regular file called [actual_name] is found from the working
    directory and the download is not forced, [download_file] fetches no
    digest and downloads nothing: after the walker it goes straight to the
    alias step. *)
Lemma download_file_skips E path type url expected_name w v w1 p :
  get_versioned_image_link E (recursion_limit E) url w = (Ok v, w1) →
  urlparse E v = Ok p →
  isfile w1 (PyStr.final (PyStr.split "/" (url_path p))) = true →
  download_file E path type url expected_name false w
  = alias_link path type expected_name (PyStr.final (PyStr.split "/" (url_path p))) w1.
Proof.
  intros Hv Hp Hi.
  rewrite (download_file_eq E path type url expected_name false w v w1 p Hv Hp).
  now rewrite Hi.
Qed.

(** C2: the test for an earlier download looks in the working directory,
    not in the destination directory.  Run from [/home/user] with
    destination [/srv/images]: with [img-1.2.qcow2] already in the
    destination and no force, the digest is fetched and the file downloaded
    again; with a file of that name in the working directory and none in the
    destination, nothing is fetched or downloaded. *)
Theorem download_file_checks_working_directory :
  (isfile (Demo.start (<[ ["srv"; "images"; "img-1.2.qcow2"] := File "DATA" ]> Demo.dirs)
                      "/home/user")
          "/srv/images/img-1.2.qcow2" = true
   ∧ net_log
       (download_file Demo.env "/srv/images" "kvm" "http://mirror/img-1.2.qcow2"
          "img-1.2.qcow2" false
          (Demo.start (<[ ["srv"; "images"; "img-1.2.qcow2"] := File "DATA" ]> Demo.dirs)
                      "/home/user")).2
     = [HEAD "http://mirror/img-1.2.qcow2"; GET "http://mirror/img-1.2.qcow2.sha256";
        WGET "http://mirror/img-1.2.qcow2"])
  ∧ (isfile (Demo.start (<[ ["home"; "user"; "img-1.2.qcow2"] := File "DATA" ]> Demo.dirs)
                        "/home/user")
            "/srv/images/img-1.2.qcow2" = false
     ∧ download_file Demo.env "/srv/images" "kvm" "http://mirror/img-1.2.qcow2"
         "img-1.2.qcow2" false
         (Demo.start (<[ ["home"; "user"; "img-1.2.qcow2"] := File "DATA" ]> Demo.dirs)
                     "/home/user")
       = (Ok tt,
          World (<[ ["home"; "user"; "img-1.2.qcow2"] := File "DATA" ]> Demo.dirs)
                "/home/user" [] [HEAD "http://mirror/img-1.2.qcow2"])).
Proof. repeat split; vm_compute; reflexivity. Qed.

(** ** The [--skip] flag *)

(** C8, as the script has it: when the [requests] module is installed and
    the argument parser accepts the command line, a command line with
    [--skip] ends the script with exit status 0 and the world untouched (no
    file, no request, no output), whatever the other arguments are worth.  A
    command line the parser refuses ends the script with the parser's own
    exit, before the flag is looked at, the world untouched as well. *)
Theorem main_skip E argv w :
  requests_installed E = true →
  (∀ args, parse_args E argv = Ok args → arg_skip args = true →
     main E argv w = (Raise (SystemExit 0), w)
     ∧ exit_status (main E argv w).1 = 0%Z)
  ∧ (∀ e, parse_args E argv = Raise e → main E argv w = (Raise e, w)).
Proof.
  intros Hr. unfold main. rewrite Hr. simpl. split.
  - intros args Hp Hs. rewrite (bind_lift_ok _ _ _ _ Hp). rewrite Hs. now split.
  - intros e Hp. unfold bind, lift. now rewrite Hp.
Qed.

Lemma main_skip_witness :
  main Demo.env ["/no/such/dir"; "kvm"; "gopher://nowhere"; "--skip"]
    (Demo.start Demo.dirs "/home/user")
  = (Raise (SystemExit 0), Demo.start Demo.dirs "/home/user").
Proof.
  apply (proj1 (main_skip Demo.env ["/no/such/dir"; "kvm"; "gopher://nowhere"; "--skip"]
                  (Demo.start Demo.dirs "/home/user") eq_refl)
           (MkArgs "/no/such/dir" "kvm" "gopher://nowhere" None true false));
    reflexivity.
Defined.

(** [--skip] alone is refused by the argument parser, which wants the
    three positionals: exit status 2.  Without the [requests] module the
    script stops at its first lines with a message and exit status 1, the
    flag notwithstanding. *)
Lemma main_skip_not_always_zero :
  ("--skip" ∈ ["--skip"]
   ∧ exit_status (main Demo.env ["--skip"] (Demo.start Demo.dirs "/home/user")).1 = 2%Z)
  ∧ ("--skip" ∈ ["/srv/images"; "kvm"; "channel://devel"; "--skip"]
     ∧ main Demo.env_without_requests ["/srv/images"; "kvm"; "channel://devel"; "--skip"]
         (Demo.start Demo.dirs "/home/user")
       = (Raise (SystemExit 1),
          World Demo.dirs "/home/user" ["Please install python-requests"] [])).
Proof.
  repeat split.
  - apply list_elem_of_singleton. reflexivity.
  - rewrite !elem_of_cons. do 3 right. now left.
Qed.

(** * Further properties of the script *)

(** ** The redirect walker, from its result *)

(** X1: when the walker returns a URL, the HEAD requests it made form a
    redirect chain from the URL it was given to the URL it returns, whose
    own response had status 200; the chain is shorter than the recursion
    budget. *)
Theorem get_versioned_image_link_sound E fuel : ∀ url w v w',
  get_versioned_image_link E fuel url w = (Ok v, w') →
  ∃ n, (n < fuel)%nat ∧ redirect_chain E (net_log w) url n 200 (net_log w') v.
Proof.
  induction fuel as [|fuel IH]; intros url w v w' H; simpl in H; [discriminate|].
  unfold bind, requests_head in H.
  destruct (http_head E (net_log w) url) as [r|] eqn:Hh; [|discriminate].
  destruct ((status_code r =? 302)%Z || (status_code r =? 301)%Z) eqn:Hs.
  - destruct (location r) as [next|] eqn:Hl; [|discriminate].
    destruct (IH _ _ _ _ H) as (n & Hn & Hc).
    exists (S n). split; [lia|].
    apply (chain_hop E (net_log w) url r next n 200 (net_log w') v Hh); auto.
    apply orb_true_iff in Hs as [Hs|Hs]; apply Z.eqb_eq in Hs; auto.
  - apply orb_false_iff in Hs as [H302 H301].
    apply Z.eqb_neq in H302, H301.
    destruct (status_code r =? 200)%Z eqn:H200; [|discriminate].
    apply Z.eqb_eq in H200. unfold ret in H. inversion H; subst v w'.
    exists 0. split; [lia|]. rewrite <- H200.
    now apply chain_end.
Qed.

Lemma get_versioned_image_link_sound_witness :
  ∃ n, (n < 1000)%nat
       ∧ redirect_chain Demo.env [] "http://mirror/latest.qcow2" n 200
           [HEAD "http://mirror/latest.qcow2"; HEAD "http://mirror/r2";
            HEAD "http://mirror/img-1.2.qcow2"]
           "http://mirror/img-1.2.qcow2".
Proof.
  apply (get_versioned_image_link_sound Demo.env 1000 "http://mirror/latest.qcow2"
           (Demo.start Demo.dirs "/home/user") "http://mirror/img-1.2.qcow2"
           (World Demo.dirs "/home/user" []
              [HEAD "http://mirror/latest.qcow2"; HEAD "http://mirror/r2";
               HEAD "http://mirror/img-1.2.qcow2"])).
  vm_compute. reflexivity.
Defined.

(** X2: whatever the servers answer, the walker leaves the file system,
    the working directory and the output alone; all it adds to the network
    log are HEAD requests, at most as many as its recursion budget; and it
    fails in three ways only: UnresolvableLocation, a request that raises
    (a redirect without Location among them), or the exhausted budget. *)
Theorem get_versioned_image_link_effects E fuel : ∀ url w,
  fs (get_versioned_image_link E fuel url w).2 = fs w
  ∧ cwd (get_versioned_image_link E fuel url w).2 = cwd w
  ∧ stdout (get_versioned_image_link E fuel url w).2 = stdout w
  ∧ (∃ urls : list string,
        net_log (get_versioned_image_link E fuel url w).2
        = net_log w ++ (HEAD <$> urls)
        ∧ (List.length urls ≤ fuel)%nat)
  ∧ (∀ e, (get_versioned_image_link E fuel url w).1 = Raise e →
       e = UnresolvableLocation ∨ e = RequestException
       ∨ e = RuntimeError "maximum recursion depth exceeded").
Proof.
  induction fuel as [|fuel IH]; intros url w; simpl.
  - repeat split; auto.
    + exists []. simpl. rewrite app_nil_r. auto.
    + intros e He. inversion He. auto.
  - unfold bind, requests_head.
    destruct (http_head E (net_log w) url) as [r|].
    + destruct ((status_code r =? 302)%Z || (status_code r =? 301)%Z).
      * destruct (location r) as [next|].
        -- destruct (IH next (log_request (HEAD url) w))
             as (H1 & H2 & H3 & (urls & H4 & H5) & H6).
           repeat split; auto.
           exists (url :: urls). simpl in *. rewrite H4, <- app_assoc.
           split; [reflexivity|lia].
        -- simpl. repeat split; auto.
           ++ exists [url]. simpl. split; [reflexivity|lia].
           ++ intros e He. inversion He. auto.
      * destruct (status_code r =? 200)%Z; simpl; repeat split; auto;
          try (exists [url]; simpl; split; [reflexivity|lia]);
          intros e He; inversion He; auto.
    + simpl. repeat split; auto.
      * exists [url]. simpl. split; [reflexivity|lia].
      * intros e He. inversion He. auto.
Qed.

(** X3: against servers that keep redirecting (every HEAD request is
    answered 301 or 302 with a Location), the walker never returns: it uses
    up its recursion budget, one HEAD request per level, and fails with the
    recursion error. *)
Theorem get_versioned_image_link_loop E :
  (∀ log url, ∃ r next,
      http_head E log url = Some r
      ∧ (status_code r = 301%Z ∨ status_code r = 302%Z)
      ∧ location r = Some next) →
  ∀ fuel url w,
    (get_versioned_image_link E fuel url w).1
    = Raise (RuntimeError "maximum recursion depth exceeded")
    ∧ List.length (net_log (get_versioned_image_link E fuel url w).2)
      = (List.length (net_log w) + fuel)%nat.
Proof.
  intros Hloop. induction fuel as [|fuel IH]; intros url w; simpl.
  - split; [reflexivity|lia].
  - destruct (Hloop (net_log w) url) as (r & next & Hh & Hs & Hl).
    rewrite (bind_ok _ _ _ _ _ (requests_head_ok E url w r Hh)).
    assert (((status_code r =? 302) || (status_code r =? 301))%Z = true) as ->.
    { destruct Hs as [-> | ->]; reflexivity. }
    rewrite Hl. destruct (IH next (log_request (HEAD url) w)) as [H1 H2].
    split; [exact H1|]. rewrite H2. simpl. rewrite length_app. simpl. lia.
Qed.

Lemma get_versioned_image_link_loop_witness :
  (get_versioned_image_link Demo.env_loop 1000 "http://mirror/loop"
     (Demo.start Demo.dirs "/home/user")).1
  = Raise (RuntimeError "maximum recursion depth exceeded")
  ∧ List.length
      (net_log (get_versioned_image_link Demo.env_loop 1000 "http://mirror/loop"
                  (Demo.start Demo.dirs "/home/user")).2)
    = (List.length (net_log (Demo.start Demo.dirs "/home/user")) + 1000)%nat.
Proof.
  apply (get_versioned_image_link_loop Demo.env_loop).
  intros log url. exists (Response 302 (Some url)), url.
  repeat split. now right.
Defined.

(** ** File names *)

Lemma append_empty_r (s : string) : s +:+ "" = s.
Proof.
  induction s as [|c s IH]; [reflexivity|].
  change (String c (s +:+ "") = String c s). now rewrite IH.
Qed.

Lemma join_last sep (l : list string) :
  l ≠ [] →
  ∃ dir, PyStr.join sep l = dir +:+ List.last l ""
         ∧ (dir = "" ∨ ∃ d, dir = d +:+ sep).
Proof.
  induction l as [|x l IH]; intros Hne; [congruence|].
  destruct l as [|y l].
  - exists "". split; [reflexivity|now left].
  - destruct IH as (dir & Hj & Hd); [discriminate|].
    exists (x +:+ sep +:+ dir). split.
    + change (PyStr.join sep (x :: y :: l)) with (x +:+ sep +:+ PyStr.join sep (y :: l)).
      change (List.last (x :: y :: l) "") with (List.last (y :: l) "").
      rewrite Hj. now rewrite !append_assoc.
    + right. destruct Hd as [->|[d ->]].
      * exists x. now rewrite append_empty_r.
      * exists (x +:+ sep +:+ d). now rewrite !append_assoc.
Qed.

Lemma last_in {A} (l : list A) d : l ≠ [] → In (List.last l d) l.
Proof.
  induction l as [|x l IH]; intros Hne; [congruence|].
  destruct l as [|y l]; [now left|]. right. apply IH. discriminate.
Qed.

(** X4: the name [get_filename] derives from a URL is what follows the
    last slash of the URL's path (the whole path when it has no slash): the
    path is a directory part, empty or ending in a slash, followed by the
    name, and the name holds no slash.  The world is not touched. *)
Theorem get_filename_last_segment E url w p :
  urlparse E url = Ok p →
  ∃ name dir,
    get_filename E url w = (Ok name, w)
    ∧ url_path p = dir +:+ name
    ∧ (dir = "" ∨ ∃ d, dir = d +:+ "/")
    ∧ PyStr.contains "/" name = false.
Proof.
  intros Hp.
  destruct (join_last "/" (PyStr.split "/" (url_path p)) (split_nonempty _ _))
    as (dir & Hj & Hd).
  change "/" with (String "/"%char EmptyString) in Hj at 1.
  rewrite join_split in Hj.
  exists (PyStr.final (PyStr.split "/" (url_path p))), dir.
  repeat split; [|exact Hj|exact Hd|].
  - unfold get_filename. now rewrite (bind_lift_ok _ _ _ _ Hp).
  - pose proof (split_pieces "/" (url_path p)) as Hall.
    rewrite Forall_forall in Hall. apply Hall.
    apply list_elem_of_In, last_in, split_nonempty.
Qed.

Lemma get_filename_last_segment_witness :
  ∃ name dir,
    get_filename Demo.env "http://mirror/pool/x86/img-1.2.qcow2"
      (Demo.start Demo.dirs "/home/user")
    = (Ok name, Demo.start Demo.dirs "/home/user")
    ∧ url_path (MkParse "http" "mirror" "/pool/x86/img-1.2.qcow2") = dir +:+ name
    ∧ (dir = "" ∨ ∃ d, dir = d +:+ "/")
    ∧ PyStr.contains "/" name = false.
Proof.
  apply (get_filename_last_segment Demo.env "http://mirror/pool/x86/img-1.2.qcow2"
           (Demo.start Demo.dirs "/home/user")
           (MkParse "http" "mirror" "/pool/x86/img-1.2.qcow2")).
  reflexivity.
Defined.

(** ** The scan of the directory listing *)

Lemma handle_all_complete E regexp segments : ∀ (acc images : gset string),
  handle_all E regexp acc segments = Ok images →
  acc ⊆ images
  ∧ ∀ data m, data ∈ segments → re_search E regexp data = Ok (Some m) → m ∈ images.
Proof.
  induction segments as [|data rest IH]; simpl; intros acc images H.
  - inversion H; subst. split; [reflexivity|]. intros data m Hd. inversion Hd.
  - unfold handle_data in H.
    destruct (re_search E regexp data) as [[m'|]|e] eqn:Hs; [| |discriminate].
    + destruct (IH _ _ H) as [Hsub Hall]. split.
      { intros x Hx. apply Hsub, elem_of_union_r, Hx. }
      intros d0 m Hd Hr. apply elem_of_cons in Hd as [Heq|Hd]; [|eauto].
      rewrite Heq, Hs in Hr. inversion Hr; subst m'.
      apply Hsub, elem_of_union_l, elem_of_singleton. reflexivity.
    + destruct (IH _ _ H) as [Hsub Hall]. split; [exact Hsub|].
      intros d0 m Hd Hr. apply elem_of_cons in Hd as [Heq|Hd]; [|eauto].
      rewrite Heq, Hs in Hr. discriminate.
Qed.

(** X5: when the scan of a page ends without error, the set it has
    collected holds exactly the matches of the pattern in the text segments
    of the page: every segment's match is in it, and nothing else is. *)
Theorem feed_collects_matches E d text (images : gset string) :
  feed E d text = Ok images →
  ∀ m, m ∈ images
       ↔ ∃ data, data ∈ (html_text_segments E text).1
                 ∧ re_search E (ImageFinder_regexp d) data = Ok (Some m).
Proof.
  intros H m. split.
  - now apply feed_matches.
  - intros (data & Hd & Hr). unfold feed in H.
    destruct (handle_all E (ImageFinder_regexp d) ∅ (html_text_segments E text).1)
      as [images'|] eqn:Ha; [|discriminate].
    destruct (html_text_segments E text).2; [discriminate|].
    inversion H; subst images'.
    destruct (handle_all_complete _ _ _ _ _ Ha) as [_ Hall]. eauto.
Qed.

Lemma feed_collects_matches_witness :
  "SUSE-CaaS-Platform-2.0-KVM-and-Xen.x86_64-2.0.0-Build1.1.qcow2"
    ∈ ({[ "SUSE-CaaS-Platform-2.0-KVM-and-Xen.x86_64-2.0.0-Build1.1.qcow2" ]}
        : gset string)
  ↔ ∃ data, data ∈ (html_text_segments Demo.env Demo.listing).1
            ∧ re_search Demo.env (ImageFinder_regexp None) data
              = Ok (Some "SUSE-CaaS-Platform-2.0-KVM-and-Xen.x86_64-2.0.0-Build1.1.qcow2").
Proof.
  apply (feed_collects_matches Demo.env None Demo.listing).
  vm_compute. reflexivity.
Defined.

(** X6: [get_image] fails exactly on the empty set, and only with the
    KeyError of [pop]; on any other set it returns one of the set's
    elements, whichever way a set is iterated. *)
Theorem get_image_member E (images : gset string) :
  (get_image E images = Raise NoImageFound ↔ images = ∅)
  ∧ (∀ e, get_image E images = Raise e → e = NoImageFound)
  ∧ (∀ image, get_image E images = Ok image → image ∈ images).
Proof.
  split; [split|split].
  - intros H. destruct (decide (images = ∅)) as [|Hne]; [assumption|].
    destruct (get_image_elem E images Hne) as (x & Hx & _). congruence.
  - intros ->. apply get_image_empty.
  - unfold get_image. intros e H.
    destruct (elements images !! _); inversion H. reflexivity.
  - unfold get_image. intros image H.
    destruct (elements images !! _) as [x|] eqn:Hl; inversion H; subst.
    apply elem_of_elements. eapply list_elem_of_lookup_2. exact Hl.
Qed.

(** X7: when the listing holds one matching name, the resolved URL does
    not depend on the order in which a set is iterated: it is the listing
    URL, a slash, and that name. *)
Theorem get_channel_url_single_match E url d w p base text m :
  urlparse E url = Ok p →
  dict_get url_base (url_netloc p) = Some base →
  http_get E (net_log w) (base +:+ images_subdir d) = Some text →
  feed E d text = Ok {[ m ]} →
  get_channel_url E url d w
  = (Ok ((base +:+ images_subdir d) +:+ "/" +:+ m),
     log_request (GET (base +:+ images_subdir d)) w).
Proof.
  intros Hp Hb Hg Hf. unfold get_channel_url.
  rewrite (bind_lift_ok _ _ _ _ Hp). rewrite Hb.
  erewrite bind_ok by (unfold requests_get; rewrite Hg; reflexivity).
  rewrite (bind_lift_ok _ _ _ _ Hf).
  assert (get_image E {[ m ]} = Ok m) as Hi.
  { unfold get_image. rewrite elements_singleton. reflexivity. }
  now rewrite (bind_lift_ok _ _ _ _ Hi).
Qed.

Lemma get_channel_url_single_match_witness :
  get_channel_url Demo.env "channel://devel" None (Demo.start Demo.dirs "/home/user")
  = (Ok (("http://download.suse.de/ibs/Devel:/CASP:/Head:/ControllerNode/"
            +:+ images_subdir None) +:+ "/"
           +:+ "SUSE-CaaS-Platform-2.0-KVM-and-Xen.x86_64-2.0.0-Build1.1.qcow2"),
     log_request
       (GET ("http://download.suse.de/ibs/Devel:/CASP:/Head:/ControllerNode/"
               +:+ images_subdir None))
       (Demo.start Demo.dirs "/home/user")).
Proof.
  apply (get_channel_url_single_match Demo.env "channel://devel" None
           (Demo.start Demo.dirs "/home/user") (MkParse "channel" "devel" "")
           "http://download.suse.de/ibs/Devel:/CASP:/Head:/ControllerNode/"
           Demo.listing
           "SUSE-CaaS-Platform-2.0-KVM-and-Xen.x86_64-2.0.0-Build1.1.qcow2").
  - reflexivity.
  - reflexivity.
  - reflexivity.
  - vm_compute. reflexivity.
Defined.

(** X8: channel resolution never touches the file system, the working
    directory or the output, and makes at most one request: the GET of the
    listing of a channel of the table, in the subdirectory that goes with
    the docker image name. *)
Theorem get_channel_url_effects E url d w :
  fs (get_channel_url E url d w).2 = fs w
  ∧ cwd (get_channel_url E url d w).2 = cwd w
  ∧ stdout (get_channel_url E url d w).2 = stdout w
  ∧ (net_log (get_channel_url E url d w).2 = net_log w
     ∨ ∃ channel base,
         dict_get url_base channel = Some base
         ∧ net_log (get_channel_url E url d w).2
           = net_log w ++ [GET (base +:+ images_subdir d)]).
Proof.
  assert (∀ (r : result string),
            fs (r, w).2 = fs w ∧ cwd (r, w).2 = cwd w ∧ stdout (r, w).2 = stdout w
            ∧ (net_log (r, w).2 = net_log w
               ∨ ∃ channel base,
                   dict_get url_base channel = Some base
                   ∧ net_log (r, w).2
                     = net_log w ++ [GET (base +:+ images_subdir d)])) as Hsame.
  { intros r. simpl. auto. }
  assert (∀ (r : result string) channel base,
            dict_get url_base channel = Some base →
            let w' := log_request (GET (base +:+ images_subdir d)) w in
            fs (r, w').2 = fs w ∧ cwd (r, w').2 = cwd w ∧ stdout (r, w').2 = stdout w
            ∧ (net_log (r, w').2 = net_log w
               ∨ ∃ channel base,
                   dict_get url_base channel = Some base
                   ∧ net_log (r, w').2
                     = net_log w ++ [GET (base +:+ images_subdir d)])) as Hget.
  { intros r channel base Hb. simpl. repeat split.
    right. exists channel, base. split; [exact Hb|reflexivity]. }
  unfold get_channel_url, bind, lift.
  destruct (urlparse E url) as [p|e]; [|apply Hsame].
  destruct (dict_get url_base (url_netloc p)) as [base|] eqn:Hb; [|apply Hsame].
  unfold requests_get.
  destruct (http_get E (net_log w) (base +:+ images_subdir d)) as [text|];
    [|apply (Hget _ _ _ Hb)].
  destruct (feed E d text) as [images|e]; [|apply (Hget _ _ _ Hb)].
  destruct (get_image E images); apply (Hget _ _ _ Hb).
Qed.

(** ** Downloads that are not made, checks that cannot fail *)

Lemma download_file_skips_witness :
  download_file Demo.env "/srv/images" "kvm" "http://mirror/latest.qcow2"
    "latest.qcow2" false
    (Demo.start (<[ ["home"; "user"; "img-1.2.qcow2"] := File "OLD" ]> Demo.dirs)
                "/home/user")
  = alias_link "/srv/images" "kvm" "latest.qcow2"
      (PyStr.final (PyStr.split "/" (url_path (MkParse "http" "mirror" "/img-1.2.qcow2"))))
      (World (<[ ["home"; "user"; "img-1.2.qcow2"] := File "OLD" ]> Demo.dirs)
         "/home/user" []
         [HEAD "http://mirror/latest.qcow2"; HEAD "http://mirror/r2";
          HEAD "http://mirror/img-1.2.qcow2"]).
Proof.
  apply (download_file_skips Demo.env "/srv/images" "kvm" "http://mirror/latest.qcow2"
           "latest.qcow2"
           (Demo.start (<[ ["home"; "user"; "img-1.2.qcow2"] := File "OLD" ]> Demo.dirs)
                       "/home/user")
           "http://mirror/img-1.2.qcow2").
  - vm_compute. reflexivity.
  - reflexivity.
  - vm_compute. reflexivity.
Defined.

Lemma fetch_and_verify_empty_output_witness :
  (fetch_and_verify Demo.env "http://mirror/bad.qcow2" "/no/such/dir" "bad.qcow2"
     (Demo.start Demo.dirs "/home/user")).1 = Ok tt.
Proof.
  apply (fetch_and_verify_empty_output Demo.env "http://mirror/bad.qcow2" "/no/such/dir"
           "bad.qcow2" (Demo.start Demo.dirs "/home/user")
           ("ffff00  bad.qcow2" +:+ Demo.newline)).
  - reflexivity.
  - vm_compute. reflexivity.
Defined.



(** ** The alias step and the rest of the directory *)





(** ** When the location cannot be resolved, and when it needs no alias *)

(** X13: when the walker fails, [download_file] fails with the walker's
    error and does nothing else: no digest is fetched, nothing is
    downloaded, no link is made, and the file system and the output are as
    they were. *)
Theorem download_file_unresolved E path type url expected_name force w e w1 :
  get_versioned_image_link E (recursion_limit E) url w = (Raise e, w1) →
  download_file E path type url expected_name force w = (Raise e, w1)
  ∧ fs w1 = fs w ∧ stdout w1 = stdout w.
Proof.
  intros Hv. split.
  - unfold download_file. now rewrite (bind_raise _ _ _ _ _ Hv).
  - pose proof (get_versioned_image_link_frame E (recursion_limit E) url w) as Hf.
    rewrite Hv in Hf. simpl in Hf. tauto.
Qed.

Lemma download_file_unresolved_witness :
  download_file Demo.env "/srv/images" "kvm" "http://mirror/old" "old" false
    (Demo.start Demo.dirs "/home/user")
  = (Raise UnresolvableLocation,
     World Demo.dirs "/home/user" [] [HEAD "http://mirror/old"; HEAD "http://mirror/gone"])
  ∧ fs (World Demo.dirs "/home/user" []
          [HEAD "http://mirror/old"; HEAD "http://mirror/gone"])
    = fs (Demo.start Demo.dirs "/home/user")
  ∧ stdout (World Demo.dirs "/home/user" []
              [HEAD "http://mirror/old"; HEAD "http://mirror/gone"])
    = stdout (Demo.start Demo.dirs "/home/user").
Proof.
  apply (download_file_unresolved Demo.env "/srv/images" "kvm" "http://mirror/old"
           "old" false (Demo.start Demo.dirs "/home/user")).
  vm_compute. reflexivity.
Defined.





(** ** The dispatch on the URL scheme *)

Lemma main_dispatch E argv w args :
  requests_installed E = true →
  parse_args E argv = Ok args →
  arg_skip args = false →
  main E argv w
  = bind (lift (urlparse E (arg_url args)))
      (λ p1,
         if String.eqb (url_scheme p1) "http" || String.eqb (url_scheme p1) "https"
         then use_remote_file E (arg_path args) (arg_type args) (arg_url args)
                (arg_force_redownload args)
         else
           p2 <- lift (urlparse E (arg_url args)) ;;
           if String.eqb (url_scheme p2) "file" then use_local_file E (arg_url args)
           else
             p3 <- lift (urlparse E (arg_url args)) ;;
             if String.eqb (url_scheme p3) "channel" then
               use_channel_file E args (arg_path args) (arg_type args) (arg_url args)
                 (arg_docker_image_name args) (arg_force_redownload args)
             else
               print ("Unknown URL Type: " +:+ arg_url args) ;;;
               raise (SystemExit 1)) w.
Proof.
  intros Hr Hp Hs. unfold main. rewrite Hr. simpl.
  rewrite (bind_lift_ok _ _ _ _ Hp). now rewrite Hs.
Qed.

(** X15: a URL whose scheme is none of [http], [https], [file] and
    [channel] makes the script print [Unknown URL Type: <url>] and exit with
    status 1; no file is touched and no request made. *)
Theorem main_unknown_scheme E argv w args p :
  requests_installed E = true →
  parse_args E argv = Ok args →
  arg_skip args = false →
  urlparse E (arg_url args) = Ok p →
  url_scheme p ∉ ["http"; "https"; "file"; "channel"] →
  main E argv w
  = (Raise (SystemExit 1),
     World (fs w) (cwd w) (stdout w ++ ["Unknown URL Type: " +:+ arg_url args])
           (net_log w))
  ∧ exit_status (main E argv w).1 = 1%Z.
Proof.
  intros Hr Ha Hs Hp Hn. rewrite (main_dispatch E argv w args Hr Ha Hs).
  rewrite !not_elem_of_cons in Hn. destruct Hn as (H1 & H2 & H3 & H4 & _).
  apply String.eqb_neq in H1, H2, H3, H4.
  rewrite (bind_lift_ok _ _ _ _ Hp). cbv beta. rewrite H1, H2.
  change (false || false) with false. cbv beta iota.
  rewrite (bind_lift_ok _ _ _ _ Hp). cbv beta. rewrite H3.
  rewrite (bind_lift_ok _ _ _ _ Hp). cbv beta. rewrite H4.
  split; reflexivity.
Qed.

Lemma main_unknown_scheme_witness :
  main Demo.env ["/srv/images"; "kvm"; "ftp://mirror/img.qcow2"]
    (Demo.start Demo.dirs "/home/user")
  = (Raise (SystemExit 1),
     World Demo.dirs "/home/user" ["Unknown URL Type: ftp://mirror/img.qcow2"] [])
  ∧ exit_status (main Demo.env ["/srv/images"; "kvm"; "ftp://mirror/img.qcow2"]
                   (Demo.start Demo.dirs "/home/user")).1 = 1%Z.
Proof.
  apply (main_unknown_scheme Demo.env ["/srv/images"; "kvm"; "ftp://mirror/img.qcow2"]
           (Demo.start Demo.dirs "/home/user")
           (MkArgs "/srv/images" "kvm" "ftp://mirror/img.qcow2" None false false)
           (MkParse "ftp" "mirror" "/img.qcow2")).
  - reflexivity.
  - reflexivity.
  - reflexivity.
  - reflexivity.
  - rewrite !not_elem_of_cons. repeat split; try discriminate. apply not_elem_of_nil.
Defined.

(** X16: a [channel://] URL naming a channel that is not in the table ends
    the script with the UnknownChannel error, exit status 1, before any
    request is made or any file touched. *)
Theorem main_unknown_channel E argv w args p :
  requests_installed E = true →
  parse_args E argv = Ok args →
  arg_skip args = false →
  urlparse E (arg_url args) = Ok p →
  url_scheme p = "channel" →
  url_netloc p ∉ url_base.*1 →
  main E argv w = (Raise (UnknownChannel (url_netloc p)), w)
  ∧ exit_status (main E argv w).1 = 1%Z.
Proof.
  intros Hr Ha Hs Hp Hc Hn. rewrite (main_dispatch E argv w args Hr Ha Hs).
  rewrite (bind_lift_ok _ _ _ _ Hp). cbv beta. rewrite Hc.
  change (String.eqb "channel" "http" || String.eqb "channel" "https") with false.
  cbv beta iota.
  rewrite (bind_lift_ok _ _ _ _ Hp). cbv beta. rewrite Hc.
  change (String.eqb "channel" "file") with false. cbv beta iota.
  rewrite (bind_lift_ok _ _ _ _ Hp). cbv beta. rewrite Hc.
  change (String.eqb "channel" "channel") with true. cbv beta iota.
  unfold use_channel_file, get_channel_url.
  assert (∀ (k : string → M unit),
            bind (bind (lift (urlparse E (arg_url args)))
                    (λ p0, match dict_get url_base (url_netloc p0) with
                           | Some base =>
                               r <- requests_get E
                                      (base +:+ images_subdir (arg_docker_image_name args)) ;;
                               images <- lift (feed E (arg_docker_image_name args) r) ;;
                               image <- lift (get_image E images) ;;
                               ret ((base +:+ images_subdir (arg_docker_image_name args))
                                      +:+ "/" +:+ image)
                           | None =>
                               raise (Exception ("Unknown channel: " +:+ url_netloc p0))
                           end)) k w
            = (Raise (UnknownChannel (url_netloc p)), w)) as Hk.
  { intros k. unfold bind, lift. rewrite Hp.
    now rewrite (dict_get_not_in _ _ Hn). }
  rewrite Hk. split; reflexivity.
Qed.

Lemma main_unknown_channel_witness :
  main Demo.env ["/srv/images"; "kvm"; "channel://nightly"]
    (Demo.start Demo.dirs "/home/user")
  = (Raise (UnknownChannel "nightly"), Demo.start Demo.dirs "/home/user")
  ∧ exit_status (main Demo.env ["/srv/images"; "kvm"; "channel://nightly"]
                   (Demo.start Demo.dirs "/home/user")).1 = 1%Z.
Proof.
  apply (main_unknown_channel Demo.env ["/srv/images"; "kvm"; "channel://nightly"]
           (Demo.start Demo.dirs "/home/user")
           (MkArgs "/srv/images" "kvm" "channel://nightly" None false false)
           (MkParse "channel" "nightly" "")).
  - reflexivity.
  - reflexivity.
  - reflexivity.
  - reflexivity.
  - reflexivity.
  - rewrite url_base_channels, !not_elem_of_cons.
    repeat split; try discriminate. apply not_elem_of_nil.
Defined.

(** X17: for a [file://] URL the script does what [use_local_file] does and
    never goes to the network: the request log is unchanged, so nothing is
    downloaded and no digest is fetched or compared. *)
Theorem main_file_no_network E argv w args p :
  requests_installed E = true →
  parse_args E argv = Ok args →
  arg_skip args = false →
  urlparse E (arg_url args) = Ok p →
  url_scheme p = "file" →
  main E argv w = use_local_file E (arg_url args) w
  ∧ net_log (main E argv w).2 = net_log w.
Proof.
  intros Hr Ha Hs Hp Hc.
  assert (main E argv w = use_local_file E (arg_url args) w) as Hm.
  { rewrite (main_dispatch E argv w args Hr Ha Hs).
    rewrite (bind_lift_ok _ _ _ _ Hp). cbv beta. rewrite Hc.
    change (String.eqb "file" "http" || String.eqb "file" "https") with false.
    cbv beta iota.
    rewrite (bind_lift_ok _ _ _ _ Hp). cbv beta. now rewrite Hc. }
  split; [exact Hm|]. rewrite Hm.
  rewrite (use_local_file_eq E _ w p Hp).
  destruct (negb _); [|reflexivity].
  now rewrite (proj2 (proj2 (relink_frame _ _ _))).
Qed.

Lemma main_file_no_network_witness :
  main Demo.env ["/srv/images"; "kvm"; "file:///tmp/x/img.qcow2"]
    (Demo.start Demo.dirs "/home/user")
  = use_local_file Demo.env "file:///tmp/x/img.qcow2" (Demo.start Demo.dirs "/home/user")
  ∧ net_log (main Demo.env ["/srv/images"; "kvm"; "file:///tmp/x/img.qcow2"]
               (Demo.start Demo.dirs "/home/user")).2
    = net_log (Demo.start Demo.dirs "/home/user").
Proof.
  apply (main_file_no_network Demo.env ["/srv/images"; "kvm"; "file:///tmp/x/img.qcow2"]
           (Demo.start Demo.dirs "/home/user")
           (MkArgs "/srv/images" "kvm" "file:///tmp/x/img.qcow2" None false false)
           (MkParse "file" "" "/tmp/x/img.qcow2"));
    reflexivity.
Defined.

(** ** Paths below the destination directory *)

















(** ** From the URL to the alias *)



(** ** Running the local-file aliaser again *)

Lemma os_symlink_stdout target p w o :
  (os_symlink target p (World (fs w) (cwd w) o (net_log w))).1
  = (os_symlink target p w).1
  ∧ fs (os_symlink target p (World (fs w) (cwd w) o (net_log w))).2
    = fs (os_symlink target p w).2.
Proof.
  unfold os_symlink. rewrite key_of_upd. simpl fs.
  destruct (decide (p = "" ∨ target = "")); [now simpl|].
  destruct (Fs.node_at (fs w) (key_of w p)); [now simpl|].
  destruct (Fs.node_at (fs w) (Fs.parent (key_of w p))) as [[| |]|]; now simpl.
Qed.

Lemma relink_eq target p w :
  relink target p w
  = os_symlink target p
      (match lstat w p with
       | Some (Link _) =>
           World (delete (key_of w p) (fs w)) (cwd w) (stdout w) (net_log w)
       | _ => w
       end).
Proof.
  unfold relink, bind at 1, os_path_islink.
  destruct (lstat w p) as [[c|t|]|] eqn:Hn; cbv beta iota; try reflexivity.
  now rewrite (bind_ok _ _ _ _ _ (os_unlink_link w p t Hn)).
Qed.

(** What [relink] does to the file system, and whether it succeeds, does
    not depend on what has been printed. *)
Lemma relink_stdout target p w o :
  (relink target p (World (fs w) (cwd w) o (net_log w))).1 = (relink target p w).1
  ∧ fs (relink target p (World (fs w) (cwd w) o (net_log w))).2
    = fs (relink target p w).2.
Proof.
  rewrite !relink_eq.
  assert (lstat (World (fs w) (cwd w) o (net_log w)) p = lstat w p) as ->
    by reflexivity.
  rewrite key_of_upd. simpl fs. simpl cwd. simpl stdout. simpl net_log.
  destruct (lstat w p) as [[c|t|]|]; try apply os_symlink_stdout.
  exact (os_symlink_stdout target p
           (World (delete (key_of w p) (fs w)) (cwd w) (stdout w) (net_log w)) o).
Qed.

(** X19: running [use_local_file] a second time on the same URL leaves the
    file system as the first run left it, and succeeds if the first run
    did: re-running the tool on a local file is harmless. *)
Theorem use_local_file_idempotent E url w p :
  urlparse E url = Ok p →
  fs (use_local_file E url (use_local_file E url w).2).2
  = fs (use_local_file E url w).2
  ∧ ((use_local_file E url w).1 = Ok tt →
     (use_local_file E url (use_local_file E url w).2).1 = Ok tt).
Proof.
  intros Hp.
  set (n := PyStr.final (PyStr.split "/" (url_path p))).
  set (w' := World (fs w) (cwd w) (stdout w ++ [cwd w +:+ "/" +:+ n]) (net_log w)).
  assert (use_local_file E url w
          = if negb (String.eqb (cwd w +:+ "/" +:+ n) (url_path p))
            then relink (url_path p) n w' else (Ok tt, w')) as H1
    by apply (use_local_file_eq E url w p Hp).
  destruct (negb (String.eqb (cwd w +:+ "/" +:+ n) (url_path p))) eqn:Hcmp.
  - destruct (relink_frame (url_path p) n w') as (Hc & _ & _).
    assert (cwd (use_local_file E url w).2 = cwd w) as Hcwd by (rewrite H1; exact Hc).
    rewrite (use_local_file_eq E url _ p Hp). fold n. rewrite Hcwd, Hcmp.
    set (w1 := (use_local_file E url w).2) in *.
    destruct (relink_stdout (url_path p) n w1 (stdout w1 ++ [cwd w +:+ "/" +:+ n]))
      as [Hr Hf].
    rewrite Hcwd in Hr, Hf. rewrite Hr, Hf.
    unfold w1. rewrite H1.
    destruct (relink_idempotent (url_path p) n w') as [Hi1 Hi2].
    split; [now rewrite Hi1|exact Hi2].
  - assert (cwd (use_local_file E url w).2 = cwd w) as Hcwd by (rewrite H1; reflexivity).
    rewrite (use_local_file_eq E url _ p Hp). fold n. rewrite Hcwd, Hcmp.
    rewrite H1. split; reflexivity.
Qed.

Lemma use_local_file_idempotent_witness :
  fs (use_local_file Demo.env "file:///tmp/x/img.qcow2"
        (use_local_file Demo.env "file:///tmp/x/img.qcow2"
           (Demo.start Demo.dirs "/home/user")).2).2
  = fs (use_local_file Demo.env "file:///tmp/x/img.qcow2"
          (Demo.start Demo.dirs "/home/user")).2
  ∧ ((use_local_file Demo.env "file:///tmp/x/img.qcow2"
        (Demo.start Demo.dirs "/home/user")).1 = Ok tt →
     (use_local_file Demo.env "file:///tmp/x/img.qcow2"
        (use_local_file Demo.env "file:///tmp/x/img.qcow2"
           (Demo.start Demo.dirs "/home/user")).2).1 = Ok tt).
Proof.
  apply (use_local_file_idempotent Demo.env "file:///tmp/x/img.qcow2"
           (Demo.start Demo.dirs "/home/user") (MkParse "file" "" "/tmp/x/img.qcow2")).
  reflexivity.
Defined.
